(** * Octopus Germany integration: tariff selection, rate resolution and the
      optimistic device switch

    A shallow embedding of [custom_components/octopus_germany/sensor.py] and
    [custom_components/octopus_germany/switch.py].

    - [Py]       : the fragment of Python the two files rely on (exceptions,
                   [dict.get], truthiness, [str] order, [int], [float],
                   [datetime.time]).
    - [Data]     : the account snapshot that the coordinator supplies.
    - [Sensor]   : the price sensors of sensor.py (electricity and gas share
                   their code; the model is parameterised by the fuel).
    - [Switch]   : the [OctopusSwitch] entity of switch.py, its synchronous
                   methods in a state-and-exception monad and its two
                   coroutines as trees of atomic segments.
    - [Host]     : the cooperative event loop that calls the entity.
    - [Spec]     : the notions of the specification, in its own words.
    - [Examples] : sample snapshots.

    The properties follow: the Python fragment, the selection of the product
    in force, the validity interval, the time window, the resolution of
    time-of-use rates, the unit conversion and the read paths, and the
    reconciler of the switch. *)

From Stdlib Require Import ZArith String Ascii List Bool Lia.
From Stdlib Require Import Sorting.Permutation Sorting.Sorted.
From Stdlib Require Import Floats.SpecFloat.
From stdpp Require Import base option gmap strings.
Import ListNotations.

Open Scope string_scope.
Open Scope Z_scope.

(* ===================================================================== *)
(** * The Python fragment *)
(* ===================================================================== *)

Module Py.

(** Strings are ASCII text, a character per byte, and the built-ins are those
    of CPython 3.11. *)

(** The built-in exceptions that the two source files can meet.  All of
    them derive from [Exception]. *)
Inductive exn : Type :=
| ValueError
| TypeError
| AttributeError
| KeyError
| OverflowError.

(** The outcome of evaluating an expression: a value, or a raised
    exception. *)
Inductive result (A : Type) : Type :=
| Ok (a : A)
| Raise (e : exn).
Arguments Ok {A} a.
Arguments Raise {A} e.

Definition bind {A B} (r : result A) (k : A -> result B) : result B :=
  match r with
  | Ok a => k a
  | Raise e => Raise e
  end.

Notation "'let*' x ':=' c1 'in' c2" := (bind c1 (fun x => c2))
  (at level 10, x name, c1 at level 100, c2 at level 200).

(** [try: r  except (ValueError, TypeError): h], and the like: [caught]
    says which exceptions the clause names. *)
Definition try_except {A} (r : result A) (caught : exn -> bool) (h : result A)
  : result A :=
  match r with
  | Ok a => Ok a
  | Raise e => if caught e then h else Raise e
  end.

Definition raises {A} (r : result A) : bool :=
  match r with
  | Ok _ => false
  | Raise _ => true
  end.

(** A leaf of the JSON snapshot: [null] or a string.  A key of a dict is a
    [field]: absent ([None]) or bound to a leaf. *)
Inductive value : Type :=
| VNone
| VStr (s : string).

Definition field := option value.

(** [d.get(key, default)] and [d.get(key)]. *)
Definition get_default (f : field) (default : value) : value :=
  match f with
  | Some v => v
  | None => default
  end.

Definition get (f : field) : value := get_default f VNone.

(** [d[key]]. *)
Definition subscript (f : field) : result value :=
  match f with
  | Some v => Ok v
  | None => Raise KeyError
  end.

(** [bool(v)]: [None] and the empty string are false. *)
Definition truthy (v : value) : bool :=
  match v with
  | VNone => false
  | VStr EmptyString => false
  | VStr _ => true
  end.

Definition value_eqb (a b : value) : bool :=
  match a, b with
  | VNone, VNone => true
  | VStr s, VStr t => String.eqb s t
  | _, _ => false
  end.

(** [a <= b] on [str]: lexicographic on code points. *)
Definition str_le (a b : string) : bool := String.leb a b.

(** ** Characters *)

Definition ord (c : ascii) : Z := Z.of_N (N_of_ascii c).

(** The whitespace that [int] and [float] strip from an ASCII string:
    TAB, LF, VT, FF, CR and the space. *)
Definition is_space (c : ascii) : bool :=
  ((9 <=? ord c) && (ord c <=? 13)) || (ord c =? 32).

Definition is_digit (c : ascii) : bool :=
  (48 <=? ord c) && (ord c <=? 57).

Definition digit_value (c : ascii) : Z := ord c - 48.

Definition is_underscore (c : ascii) : bool := ord c =? 95.

Definition lower (c : ascii) : ascii :=
  if (65 <=? ord c) && (ord c <=? 90)
  then ascii_of_N (N_of_ascii c + 32)
  else c.

Fixpoint lstrip (cs : list ascii) : list ascii :=
  match cs with
  | c :: cs' => if is_space c then lstrip cs' else cs
  | [] => []
  end.

Definition strip (cs : list ascii) : list ascii :=
  rev (lstrip (rev (lstrip cs))).

(** Underscores of a numeric literal: each one must stand between two
    digits.  Returns the text without them, or [None]. *)
Fixpoint drop_underscores (prev : option ascii) (cs : list ascii)
  : option (list ascii) :=
  match cs with
  | [] =>
      match prev with
      | Some p => if is_underscore p then None else Some []
      | None => Some []
      end
  | c :: cs' =>
      if is_underscore c then
        match prev with
        | Some p => if is_digit p then drop_underscores (Some c) cs' else None
        | None => None
        end
      else
        let after_underscore :=
          match prev with
          | Some p => is_underscore p
          | None => false
          end in
        if after_underscore && negb (is_digit c) then None
        else option_map (cons c) (drop_underscores (Some c) cs')
      end.

(** A maximal run of decimal digits and what follows it. *)
Fixpoint span_digits (cs : list ascii) : list ascii * list ascii :=
  match cs with
  | c :: cs' =>
      if is_digit c
      then let '(ds, rest) := span_digits cs' in (c :: ds, rest)
      else ([], cs)
  | [] => ([], [])
  end.

Definition digits_value (ds : list ascii) : Z :=
  fold_left (fun acc c => 10 * acc + digit_value c) ds 0.

(** An optional sign: [true] for a minus. *)
Definition take_sign (cs : list ascii) : bool * list ascii :=
  match cs with
  | c :: cs' =>
      if ord c =? 45 then (true, cs')
      else if ord c =? 43 then (false, cs')
      else (false, cs)
  | [] => (false, [])
  end.

(** [sys.int_info.default_max_str_digits]: [int] refuses longer digit
    strings. *)
Definition max_str_digits : nat := 4300.

(** ** [int(s)] on a string, base ten *)
Definition int_of_chars (cs : list ascii) : option Z :=
  match drop_underscores None (strip cs) with
  | None => None
  | Some body =>
      let '(neg, rest) := take_sign body in
      match span_digits rest with
      | ((_ :: _) as ds, []) =>
          if (length ds <=? max_str_digits)%nat
          then Some (if neg then - digits_value ds else digits_value ds)
          else None
      | _ => None
      end
  end.

Definition int_ (s : string) : result Z :=
  match int_of_chars (list_ascii_of_string s) with
  | Some z => Ok z
  | None => Raise ValueError
  end.

(** ** [s.split(":")] *)
Fixpoint split_colon_aux (cur : list ascii) (cs : list ascii) : list string :=
  match cs with
  | [] => [string_of_list_ascii (rev cur)]
  | c :: cs' =>
      if ord c =? 58
      then string_of_list_ascii (rev cur) :: split_colon_aux [] cs'
      else split_colon_aux (c :: cur) cs'
  end.

Definition split_colon (s : string) : list string :=
  split_colon_aux [] (list_ascii_of_string s).

(** ** [float]: IEEE 754 binary64 *)

Definition prec : Z := 53.
Definition emax : Z := 1024.

Definition float := spec_float.

Definition float_of_Z (z : Z) : float := binary_normalize prec emax z 0 false.

(** The binary64 number nearest to [m * 10^e10] (ties to even), signed. *)
Definition float_of_decimal (neg : bool) (m : Z) (e10 : Z) : float :=
  match m with
  | Zpos p =>
      if 0 <=? e10
      then
        match binary_normalize prec emax (m * 10 ^ e10) 0 false with
        | S754_finite _ q e => S754_finite neg q e
        | S754_infinity _ => S754_infinity neg
        | other => other
        end
      else
        match 10 ^ (- e10) with
        | Zpos d => SFdiv prec emax (S754_finite neg p 0) (S754_finite false d 0)
        | _ => S754_nan
        end
  | _ => S754_zero neg
  end.

(** [x / y] on floats; only ever used with the non-zero divisor [100.0]. *)
Definition float_div (x y : float) : float := SFdiv prec emax x y.

Definition hundred : float := float_of_Z 100.

Definition chars_eqb (a b : list ascii) : bool :=
  String.eqb (string_of_list_ascii a) (string_of_list_ascii b).

(** The exponent part of a decimal literal: [e] or [E], an optional sign,
    at least one digit, and nothing after it. *)
Definition exponent_of_chars (cs : list ascii) : option Z :=
  match cs with
  | [] => Some 0
  | c :: cs' =>
      if ord (lower c) =? 101 then
        let '(neg, rest) := take_sign cs' in
        match span_digits rest with
        | ((_ :: _) as ds, []) =>
            Some (if neg then - digits_value ds else digits_value ds)
        | _ => None
        end
      else None
  end.

(** [float(s)] on a string: surrounding whitespace, underscores between
    digits, a sign, then [inf], [infinity], [nan] (any case) or a decimal
    literal with an optional fraction and exponent. *)
Definition float_of_chars (cs : list ascii) : option float :=
  match drop_underscores None (strip cs) with
  | None => None
  | Some body =>
      let '(neg, rest) := take_sign body in
      let word := map lower rest in
      if chars_eqb word (list_ascii_of_string "inf")
         || chars_eqb word (list_ascii_of_string "infinity")
      then Some (S754_infinity neg)
      else if chars_eqb word (list_ascii_of_string "nan")
      then Some S754_nan
      else
        let '(ip, rest1) := span_digits rest in
        let '(fp, rest2) :=
          match rest1 with
          | c :: rest1' =>
              if ord c =? 46 then span_digits rest1' else ([], rest1)
          | [] => ([], [])
          end in
        match (ip ++ fp)%list with
        | [] => None
        | ds =>
            match exponent_of_chars rest2 with
            | Some e =>
                Some (float_of_decimal neg (digits_value ds)
                                       (e - Z.of_nat (length fp)))
            | None => None
            end
        end
  end.

(** [float(v)]: [TypeError] on [None], [ValueError] on a string that is
    not a number. *)
Definition float_ (v : value) : result float :=
  match v with
  | VNone => Raise TypeError
  | VStr s =>
      match float_of_chars (list_ascii_of_string s) with
      | Some x => Ok x
      | None => Raise ValueError
      end
  end.

(** ** [datetime.time] *)

Record time : Type := Time {
  hour : Z;
  minute : Z;
  second : Z;
  microsecond : Z
}.

(** The arguments of [time(...)] are first converted to C [int]s. *)
Definition fits_c_int (z : Z) : bool :=
  (- 2 ^ 31 <=? z) && (z <? 2 ^ 31).

(** [time(hour=h, minute=m, second=s)]: [OverflowError] for an argument
    that is no C [int], then [ValueError] for one out of its range. *)
Definition time_ (h m s : Z) : result time :=
  if negb (fits_c_int h && fits_c_int m && fits_c_int s)
  then Raise OverflowError
  else if (0 <=? h) && (h <? 24) && (0 <=? m) && (m <? 60)
          && (0 <=? s) && (s <? 60)
  then Ok (Time h m s 0)
  else Raise ValueError.

(** Naive times compare as the tuples
    [(hour, minute, second, microsecond)]. *)
Definition time_compare (a b : time) : comparison :=
  match hour a ?= hour b with
  | Eq =>
      match minute a ?= minute b with
      | Eq =>
          match second a ?= second b with
          | Eq => microsecond a ?= microsecond b
          | c => c
          end
      | c => c
      end
  | c => c
  end.

Definition time_le (a b : time) : bool :=
  match time_compare a b with
  | Gt => false
  | _ => true
  end.

Definition time_lt (a b : time) : bool :=
  match time_compare a b with
  | Lt => true
  | _ => false
  end.

Definition time_ge (a b : time) : bool := time_le b a.

End Py.

(* ===================================================================== *)
(** * The account snapshot supplied by the coordinator *)
(* ===================================================================== *)

Module Data.
Import Py.

(** The snapshot is JSON turned into dicts and lists.  Each dict is a record
    of the keys that sensor.py and switch.py read; a key that holds a string
    is a [field] (absent, [null] or a string), a key that holds a list or an
    object is absent or present, [isSuspended] is absent or a boolean and the
    balances are absent or numbers. *)

(** [{"from_time": ..., "to_time": ...}] *)
Record ActivationRule : Type := {
  from_time : field;
  to_time : field
}.

(** [{"name": ..., "rate": ..., "activation_rules": [...]}] *)
Record Timeslot : Type := {
  timeslot_name : field;                           (* "name" *)
  rate : field;
  activation_rules : option (list ActivationRule)
}.

Record Product : Type := {
  code : field;
  name : field;
  description : field;
  type : field;
  validFrom : field;
  validTo : field;
  grossRate : field;
  timeslots : option (list Timeslot)
}.

Record Meter : Type := {
  meter_id : field;                                (* "id" *)
  number : field;
  meterType : field
}.

(** [device["status"]] *)
Record Status : Type := {
  isSuspended : option bool;
  currentState : field
}.

Record Device : Type := {
  id : field;
  device_name : field;                             (* "name" *)
  provider : field;
  status : option Status
}.

Record AccountData : Type := {
  products : option (list Product);
  gas_products : option (list Product);
  meter : option Meter;
  gas_meter : option Meter;
  malo_number : field;
  melo_number : field;
  gas_malo_number : field;
  gas_melo_number : field;
  electricity_balance : option float;
  gas_balance : option float;
  devices : option (list Device)
}.

(** The coordinator: [data] is [None] until the first refresh, then a
    dict from account numbers to account data. *)
Record Coordinator : Type := {
  data : option (gmap string AccountData);
  last_update_success : bool
}.

(** [not coordinator.data]: [None] or the empty dict. *)
Definition data_falsy (c : Coordinator) : bool :=
  match data c with
  | None => true
  | Some d => bool_decide (d = ∅)
  end.

(** [isinstance(coordinator.data, dict)] *)
Definition data_is_dict (c : Coordinator) : bool :=
  match data c with
  | None => false
  | Some _ => true
  end.

(** [not product]: a dict with no key at all. *)
Definition product_falsy (p : Product) : bool :=
  match code p, name p, description p, type p,
        validFrom p, validTo p, grossRate p, timeslots p with
  | None, None, None, None, None, None, None, None => true
  | _, _, _, _, _, _, _, _ => false
  end.

End Data.

(* ===================================================================== *)
(** * sensor.py: the electricity and gas price sensors *)
(* ===================================================================== *)

Module Sensor.
Import Py Data.

(** [OctopusElectricityPriceSensor] and [OctopusGasPriceSensor] differ in
    the keys they read and in one attribute. *)
Inductive fuel : Type :=
| Electricity
| Gas.

(** [account_data.get("products", [])], [account_data.get("gas_products", [])] *)
Definition products_of (f : fuel) (account_data : AccountData) : list Product :=
  match f with
  | Electricity => default [] (products account_data)
  | Gas => default [] (gas_products account_data)
  end.

(** [except (ValueError, AttributeError)] *)
Definition value_or_attribute_error (e : exn) : bool :=
  match e with
  | ValueError | AttributeError => true
  | _ => false
  end.

(** [except (ValueError, TypeError)] *)
Definition value_or_type_error (e : exn) : bool :=
  match e with
  | ValueError | TypeError => true
  | _ => false
  end.

(** [_parse_time]: [None] stands for the [return None] of the handler. *)
Definition _parse_time (time_str : value) : result (option time) :=
  try_except
    match time_str with
    | VNone => Raise AttributeError
    | VStr s =>
        match split_colon s with
        | [hh; mm; ss] =>
            let* hour := int_ hh in
            let* minute := int_ mm in
            let* second := int_ ss in
            let* t := time_ hour minute second in
            Ok (Some t)
        | _ => Raise ValueError
        end
    end
    value_or_attribute_error
    (Ok None).

Definition is_midnight (t : time) : bool :=
  (hour t =? 0) && (minute t =? 0) && (second t =? 0).

(** [_is_time_between] *)
Definition _is_time_between (current_time time_from time_to : time) : bool :=
  if is_midnight time_to then
    if is_midnight time_from then true
    else time_ge current_time time_from || time_lt current_time time_to
  else if time_le time_from time_to then
    time_le time_from current_time && time_lt current_time time_to
  else
    time_le time_from current_time || time_lt current_time time_to.

(** [float(v) / 100.0] *)
Definition float_div_100 (v : value) : result float :=
  let* x := float_ v in
  Ok (float_div x hundred).

(** The inner loop of [_get_active_timeslot_rate],
    [for rule in timeslot.get("activation_rules", [])]: [Some x] when the
    function returns [x] from inside the loop, [None] when the loop ends. *)
Fixpoint for_rule (current_time : time) (timeslot : Timeslot)
    (rules : list ActivationRule) : result (option float) :=
  match rules with
  | [] => Ok None
  | rule :: rules' =>
      let* from_time_obj :=
        _parse_time (get_default (from_time rule) (VStr "00:00:00")) in
      let* to_time_obj :=
        _parse_time (get_default (to_time rule) (VStr "00:00:00")) in
      match from_time_obj, to_time_obj with
      | Some time_from, Some time_to =>
          if _is_time_between current_time time_from time_to
          then
            try_except
              (let* x := float_div_100 (get_default (rate timeslot) (VStr "0")) in
               Ok (Some x))
              value_or_type_error
              (for_rule current_time timeslot rules')        (* continue *)
          else for_rule current_time timeslot rules'
      | _, _ => for_rule current_time timeslot rules'
      end
  end.

(** The outer loop, [for timeslot in product["timeslots"]]. *)
Fixpoint for_timeslot (current_time : time) (slots : list Timeslot)
  : result (option float) :=
  match slots with
  | [] => Ok None
  | timeslot :: slots' =>
      let* returned := for_rule current_time timeslot
                         (default [] (activation_rules timeslot)) in
      match returned with
      | Some x => Ok (Some x)
      | None => for_timeslot current_time slots'
      end
  end.

(** [_get_active_timeslot_rate]; [current_time] is the
    [datetime.now().time()] it reads. *)
Definition _get_active_timeslot_rate (current_time : time) (product : Product)
  : result (option float) :=
  if product_falsy product then Ok None
  else if value_eqb (get (type product)) (VStr "Simple") then
    try_except
      (let* x := float_div_100 (get_default (grossRate product) (VStr "0")) in
       Ok (Some x))
      value_or_type_error
      (Ok None)
  else
    match timeslots product with
    | Some slots =>
        if value_eqb (get (type product)) (VStr "TimeOfUse")
        then for_timeslot current_time slots
        else Ok None
    | None => Ok None
    end.

(** The test of the filtering loop of [native_value] and
    [_update_attributes]: products without [validFrom] are skipped, the
    others are kept when
    [valid_from <= now and (not valid_to or now <= valid_to)]. *)
Definition currently_valid (now : string) (product : Product) : bool :=
  match get (validFrom product) with
  | VNone => false
  | VStr valid_from =>
      if negb (truthy (VStr valid_from)) then false
      else
        str_le valid_from now
        && match get (validTo product) with
           | VNone => true
           | VStr valid_to => negb (truthy (VStr valid_to)) || str_le now valid_to
           end
  end.

(** The sort key, [p.get("validFrom")] with the empty string for a missing
    key; the products that are sorted all carry a string there. *)
Definition sort_key (p : Product) : string :=
  match get_default (validFrom p) (VStr EmptyString) with
  | VStr s => s
  | VNone => EmptyString
  end.

(** [list.sort(key=..., reverse=True)]: descending and stable, so that
    products with equal keys keep their order. *)
Fixpoint insert_desc (p : Product) (l : list Product) : list Product :=
  match l with
  | [] => [p]
  | q :: l' =>
      if str_le (sort_key q) (sort_key p)
      then p :: q :: l'
      else q :: insert_desc p l'
  end.

Fixpoint sort_desc (l : list Product) : list Product :=
  match l with
  | [] => []
  | p :: l' => insert_desc p (sort_desc l')
  end.

Definition valid_products (now : string) (products : list Product)
  : list Product :=
  List.filter (currently_valid now) products.

(** The product in force: [valid_products[0]] after the sort, [None] when
    [valid_products] is empty. *)
Definition current_product (now : string) (products : list Product)
  : option Product :=
  match sort_desc (valid_products now products) with
  | p :: _ => Some p
  | [] => None
  end.

(** The rate of [current_product]: the tail of [native_value] once the
    product is chosen. *)
Definition product_rate (current_time : time) (current_product : Product)
  : result (option float) :=
  let* active_rate :=
    (if value_eqb (get (type current_product)) (VStr "TimeOfUse")
     then _get_active_timeslot_rate current_time current_product
     else Ok None) in
  match active_rate with
  | Some x => Ok (Some x)
  | None =>
      try_except
        (let* gross_rate_eur :=
           float_div_100 (get_default (grossRate current_product) (VStr "0")) in
         Ok (Some gross_rate_eur))
        value_or_type_error
        (Ok None)
  end.

(** [native_value] of the price sensor of [account_number]; [now] is
    [datetime.now().isoformat()] and [current_time] is
    [datetime.now().time()]. *)
Definition native_value (f : fuel) (account_number : string)
    (coordinator : Coordinator) (now : string) (current_time : time)
  : result (option float) :=
  if data_falsy coordinator || negb (data_is_dict coordinator) then Ok None
  else
    match data coordinator with
    | None => Ok None
    | Some d =>
        match d !! account_number with
        | None => Ok None
        | Some account_data =>
            match products_of f account_data with
            | [] => Ok None
            | products =>
                match current_product now products with
                | Some p => product_rate current_time p
                | None => Ok None
                end
            end
        end
    end.

(** ** Attributes *)

(** [{"name": ..., "rate": ..., "activation_rules": [...]}], an entry of
    the ["timeslots"] attribute. *)
Record timeslot_data : Type := {
  td_name : value;
  td_rate : value;
  td_activation_rules : list (value * value)
}.

(** A value of the attribute dict. *)
Inductive attr : Type :=
| AValue (v : value)                  (* a string or [None] of the snapshot *)
| AFloat (x : float)
| AMoney (x : float)                  (* [f"{x:.2f} €"] *)
| ATimeslots (l : list timeslot_data).

Definition unknown : value := VStr "Unknown".

Definition default_attributes (f : fuel) (account_number : string)
  : gmap string attr :=
  let common : gmap string attr :=
    <["account_number" := AValue (VStr account_number)]>
    (<["meter_type" := AValue unknown]>
    (<["meter_number" := AValue unknown]>
    (<["meter_id" := AValue unknown]>
    (<["valid_to" := AValue unknown]>
    (<["valid_from" := AValue unknown]>
    (<["type" := AValue unknown]>
    (<["description" := AValue unknown]>
    (<["name" := AValue unknown]>
    (<["code" := AValue unknown]> ∅))))))))) in
  match f with
  | Electricity => common
  | Gas => <["fuel_type" := AValue (VStr "gas")]> common
  end.

(** [account_data.get("meter", {})] or [account_data.get("gas_meter", {})],
    read into [(meter_id, meter_number, meter_type)]. *)
Definition meter_info (f : fuel) (account_data : AccountData)
  : value * value * value :=
  match (match f with
         | Electricity => meter account_data
         | Gas => gas_meter account_data
         end) with
  | Some m =>
      (get_default (meter_id m) unknown,
       get_default (number m) unknown,
       get_default (meterType m) unknown)
  | None => (unknown, unknown, unknown)
  end.

Definition with_meter (info : value * value * value)
    (attrs : gmap string attr) : gmap string attr :=
  let '(meter_id, meter_number, meter_type) := info in
  <["meter_type" := AValue meter_type]>
  (<["meter_number" := AValue meter_number]>
  (<["meter_id" := AValue meter_id]> attrs)).

(** The loop over the activation rules of one timeslot in
    [_update_attributes]: it extends the attribute dict and the rules of
    [timeslot_data].  The rate conversion is not guarded here. *)
Fixpoint attributes_for_rule (current_time : time) (timeslot : Timeslot)
    (rules : list ActivationRule)
    (product_attributes : gmap string attr) (seen : list (value * value))
  : result (gmap string attr * list (value * value)) :=
  match rules with
  | [] => Ok (product_attributes, seen)
  | rule :: rules' =>
      let from_time := get_default (from_time rule) (VStr "00:00:00") in
      let to_time := get_default (to_time rule) (VStr "00:00:00") in
      let seen := (seen ++ [(from_time, to_time)])%list in
      let* from_time_obj := _parse_time from_time in
      let* to_time_obj := _parse_time to_time in
      match from_time_obj, to_time_obj with
      | Some time_from, Some time_to =>
          if _is_time_between current_time time_from time_to
          then
            let active_timeslot := get_default (timeslot_name timeslot) unknown in
            let* r := float_div_100 (get_default (rate timeslot) (VStr "0")) in
            attributes_for_rule current_time timeslot rules'
              (<["active_timeslot_to" := AValue to_time]>
               (<["active_timeslot_from" := AValue from_time]>
               (<["active_timeslot_rate" := AFloat r]>
               (<["active_timeslot" := AValue active_timeslot]>
                  product_attributes))))
              seen
          else attributes_for_rule current_time timeslot rules'
                 product_attributes seen
      | _, _ => attributes_for_rule current_time timeslot rules'
                  product_attributes seen
      end
  end.

(** The loop over the timeslots in [_update_attributes]. *)
Fixpoint attributes_for_timeslot (current_time : time) (slots : list Timeslot)
    (product_attributes : gmap string attr) (timeslots_data : list timeslot_data)
  : result (gmap string attr * list timeslot_data) :=
  match slots with
  | [] => Ok (product_attributes, timeslots_data)
  | timeslot :: slots' =>
      let* r := attributes_for_rule current_time timeslot
                  (default [] (activation_rules timeslot))
                  product_attributes [] in
      let '(product_attributes, rules) := r in
      attributes_for_timeslot current_time slots' product_attributes
        (timeslots_data ++
           [{| td_name := get_default (timeslot_name timeslot) unknown;
               td_rate := get_default (rate timeslot) (VStr "0");
               td_activation_rules := rules |}])%list
  end.

(** [_update_attributes]: the dict it would assign to [self._attributes],
    or the exception that escapes it (the attribute is then left as it
    was). *)
Definition _update_attributes (f : fuel) (account_number : string)
    (coordinator : Coordinator) (now : string) (current_time : time)
  : result (gmap string attr) :=
  let default_attributes := default_attributes f account_number in
  match data coordinator with
  | None => Ok default_attributes
  | Some d =>
      if data_falsy coordinator then Ok default_attributes
      else
        match d !! account_number with
        | None => Ok default_attributes
        | Some account_data =>
            let info := meter_info f account_data in
            match products_of f account_data with
            | [] => Ok (with_meter info default_attributes)
            | products =>
                match current_product now products with
                | None => Ok (with_meter info default_attributes)
                | Some p =>
                    let product_attributes : gmap string attr :=
                      <["active_tariff_type" := AValue (get_default (type p) unknown)]>
                      (<["valid_to" := AValue (get_default (validTo p) unknown)]>
                      (<["valid_from" := AValue (get_default (validFrom p) unknown)]>
                      (<["type" := AValue (get_default (type p) unknown)]>
                      (<["description" := AValue (get_default (description p) unknown)]>
                      (<["name" := AValue (get_default (name p) unknown)]>
                      (<["code" := AValue (get_default (code p) unknown)]>
                         (with_meter info default_attributes))))))) in
                    let* product_attributes :=
                      match timeslots p with
                      | Some slots =>
                          if value_eqb (get (type p)) (VStr "TimeOfUse")
                          then
                            let* r := attributes_for_timeslot current_time slots
                                        product_attributes [] in
                            Ok (<["timeslots" := ATimeslots (snd r)]> (fst r))
                          else Ok product_attributes
                      | None => Ok product_attributes
                      end in
                    let product_attributes :=
                      match f with
                      | Electricity =>
                          <["melo_number" :=
                              AValue (get_default (melo_number account_data) unknown)]>
                          (<["malo_number" :=
                              AValue (get_default (malo_number account_data) unknown)]>
                             product_attributes)
                      | Gas =>
                          <["gas_melo_number" :=
                              AValue (get_default (gas_melo_number account_data) unknown)]>
                          (<["gas_malo_number" :=
                              AValue (get_default (gas_malo_number account_data) unknown)]>
                             product_attributes)
                      end in
                    Ok match f with
                       | Electricity =>
                           match electricity_balance account_data with
                           | Some b => <["electricity_balance" := AMoney b]>
                                         product_attributes
                           | None => product_attributes
                           end
                       | Gas =>
                           match gas_balance account_data with
                           | Some b => <["gas_balance" := AMoney b]>
                                         product_attributes
                           | None => product_attributes
                           end
                       end
                end
            end
        end
  end.

(** [available] of every sensor. *)
Definition available (account_number : string) (coordinator : Coordinator)
  : bool :=
  last_update_success coordinator
  && data_is_dict coordinator
  && match data coordinator with
     | Some d => bool_decide (is_Some (d !! account_number))
     | None => false
     end.

End Sensor.

(* ===================================================================== *)
(** * switch.py: the optimistic device switch *)
(* ===================================================================== *)

Module Switch.
Import Py Data.

(** An instant ([datetime]) in microseconds, with no last instant;
    [timedelta(minutes=5)]. *)
Definition datetime := Z.
Definition five_minutes : Z := 5 * 60 * 1000000.

(** The fields of [OctopusSwitch] that its methods read and write. *)
Record OctopusSwitch : Type := {
  _device_id : value;
  _account_number : string;
  _current_state : bool;
  _is_switching : bool;
  _pending_state : option bool;
  _pending_until : option datetime
}.

Definition set_current_state (b : bool) (s : OctopusSwitch) : OctopusSwitch :=
  {| _device_id := _device_id s; _account_number := _account_number s;
     _current_state := b; _is_switching := _is_switching s;
     _pending_state := _pending_state s; _pending_until := _pending_until s |}.

Definition set_is_switching (b : bool) (s : OctopusSwitch) : OctopusSwitch :=
  {| _device_id := _device_id s; _account_number := _account_number s;
     _current_state := _current_state s; _is_switching := b;
     _pending_state := _pending_state s; _pending_until := _pending_until s |}.

Definition set_pending_state (p : option bool) (s : OctopusSwitch) : OctopusSwitch :=
  {| _device_id := _device_id s; _account_number := _account_number s;
     _current_state := _current_state s; _is_switching := _is_switching s;
     _pending_state := p; _pending_until := _pending_until s |}.

Definition set_pending_until (u : option datetime) (s : OctopusSwitch) : OctopusSwitch :=
  {| _device_id := _device_id s; _account_number := _account_number s;
     _current_state := _current_state s; _is_switching := _is_switching s;
     _pending_state := _pending_state s; _pending_until := u |}.

(** What a method finds around it when it runs: the coordinator with its
    latest snapshot, and the clock. *)
Record Env : Type := {
  coordinator : Coordinator;
  now : datetime
}.

(** Methods run to completion on the entity: they read the environment,
    update the entity and return or raise; the updates made before an
    exception stay. *)
Definition M (A : Type) : Type :=
  Env -> OctopusSwitch -> result A * OctopusSwitch.

Definition ret {A} (a : A) : M A := fun _ s => (Ok a, s).

Definition mbind {A B} (m : M A) (k : A -> M B) : M B :=
  fun e s =>
    match m e s with
    | (Ok a, s') => k a e s'
    | (Raise x, s') => (Raise x, s')
    end.

Notation "'do' x '<-' m ';' k" := (mbind m (fun x => k))
  (at level 10, x name, m at level 100, k at level 200).
Notation "m ';;' k" := (mbind m (fun _ => k))
  (at level 100, k at level 200, right associativity).

Definition lift {A} (r : result A) : M A := fun _ s => (r, s).
Definition self : M OctopusSwitch := fun _ s => (Ok s, s).
Definition assign (f : OctopusSwitch -> OctopusSwitch) : M unit :=
  fun _ s => (Ok tt, f s).
Definition datetime_now : M datetime := fun e s => (Ok (now e), s).
Definition the_coordinator : M Coordinator := fun e s => (Ok (coordinator e), s).

(** [self.async_write_ha_state()]: the host publishes the entity; the entity
    itself is left as it is.  The reads of [is_on] that the host makes are
    events of their own. *)
Definition async_write_ha_state : M unit := ret tt.

(** [not device.get("status", {}).get("isSuspended", True)] *)
Definition device_is_on (device : Device) : bool :=
  negb match status device with
       | Some st => default true (isSuspended st)
       | None => true
       end.

(** [next((d for d in devices if d["id"] == device_id), None)] *)
Fixpoint next_device (device_id : value) (devices : list Device)
  : result (option Device) :=
  match devices with
  | [] => Ok None
  | d :: devices' =>
      match subscript (id d) with
      | Ok i => if value_eqb i device_id then Ok (Some d)
                else next_device device_id devices'
      | Raise x => Raise x
      end
  end.

(** [_get_device] *)
Definition _get_device : M (option Device) :=
  do c <- the_coordinator;
  do s <- self;
  match data c with
  | None => ret None
  | Some d =>
      if data_falsy c then ret None
      else
        let devices :=
          match d !! _account_number s with
          | Some account_data => default [] (devices account_data)
          | None => []
          end in
        match devices with
        | [] => ret None
        | _ => lift (next_device (_device_id s) devices)
        end
  end.

(** [_update_attributes] looks the device up and fills
    [_attr_extra_state_attributes], which no other method reads. *)
Definition _update_attributes : M unit :=
  do device <- _get_device;
  ret tt.

(** [__init__]: the entity it builds, or the exception that escapes it. *)
Definition __init__ (device : Device) (account_number : string) (e : Env)
  : result OctopusSwitch :=
  let* device_id := subscript (id device) in
  let s := {| _device_id := device_id;
              _account_number := account_number;
              _current_state := device_is_on device;
              _is_switching := false;
              _pending_state := None;
              _pending_until := None |} in
  match _update_attributes e s with
  | (Ok _, s') => Ok s'
  | (Raise x, _) => Raise x
  end.

(** The three assignments that end a switching operation. *)
Definition reset_pending : M unit :=
  assign (set_is_switching false) ;;
  assign (set_pending_state None) ;;
  assign (set_pending_until None).

(** [_handle_coordinator_update] *)
Definition _handle_coordinator_update : M unit :=
  do device <- _get_device;
  match device with
  | Some d =>
      let new_state := device_is_on d in
      do s <- self;
      (if negb (Bool.eqb new_state (_current_state s)) && negb (_is_switching s)
       then assign (set_current_state new_state)
       else ret tt) ;;
      _update_attributes ;;
      do s <- self;
      if _is_switching s then
        let actual_state := device_is_on d in
        if match _pending_state s with
           | Some p => Bool.eqb actual_state p
           | None => false
           end
        then
          reset_pending ;;
          assign (set_current_state actual_state)
        else ret tt
      else ret tt
  | None => ret tt
  end ;;
  async_write_ha_state.

(** [is_on] *)
Definition is_on : M bool :=
  do s <- self;
  do returned <-
    (if _is_switching s && bool_decide (is_Some (_pending_state s)) then
       do timed_out <-
         match _pending_until s with
         | Some pending_until =>
             do t <- datetime_now;
             ret (pending_until <? t)
         | None => ret false
         end;
       if timed_out then
         reset_pending ;;
         ret None
       else ret (_pending_state s)
     else ret None);
  match returned with
  | Some pending_state => ret pending_state
  | None =>
      do device <- _get_device;
      match device with
      | Some d =>
          assign (set_current_state (device_is_on d)) ;;
          do s <- self;
          ret (_current_state s)
      | None => ret false
      end
  end.

(** ** The coroutines *)

(** What [async_turn_on] and [async_turn_off] await. *)
Inductive awaitable : Type :=
| change_device_suspension (device_id : value) (action : string)
| asyncio_sleep (seconds : Z)
| async_request_refresh.

(** How an awaited call ends: it returns ([truth] is the truth value of
    what it returns) or it raises an [Exception]. *)
Inductive answer : Type :=
| Returns (truth : bool)
| Raises.

(** A coroutine between two segments: finished, or suspended at an
    [await] with the segment that runs when the call is answered.  Each
    segment runs to completion on the entity as it is when the coroutine
    is resumed. *)
#[warnings="-register-all"] Inductive coroutine : Type :=
| Finished
| Await (call : awaitable) (resume : answer -> M coroutine).

(** The [except Exception] suite, and the [else] branch of [if success]. *)
Definition on_failure : M coroutine :=
  reset_pending ;;
  async_write_ha_state ;;
  ret Finished.

(** [async_turn_on] ([pending_state = True], [action = "UNSUSPEND"]) and
    [async_turn_off] ([pending_state = False], [action = "SUSPEND"]) are
    the same code up to these two constants. *)
Definition toggle (pending_state : bool) (action : string) : M coroutine :=
  assign (set_is_switching true) ;;
  assign (set_pending_state (Some pending_state)) ;;
  do t <- datetime_now;
  assign (set_pending_until (Some (t + five_minutes))) ;;
  async_write_ha_state ;;
  do s <- self;
  ret (Await (change_device_suspension (_device_id s) action) (fun success =>
    match success with
    | Returns true =>
        ret (Await (asyncio_sleep 3) (fun slept =>
          match slept with
          | Returns _ =>
              ret (Await async_request_refresh (fun refreshed =>
                match refreshed with
                | Returns _ => ret Finished
                | Raises => on_failure
                end))
          | Raises => on_failure
          end))
    | Returns false => on_failure
    | Raises => on_failure
    end)).

Definition async_turn_on : M coroutine := toggle true "UNSUSPEND".
Definition async_turn_off : M coroutine := toggle false "SUSPEND".

(** [available] *)
Definition available (e : Env) (s : OctopusSwitch) : result bool :=
  let c := coordinator e in
  let* coordinator_has_data :=
    if last_update_success c then
      match data c with
      | Some d => Ok (bool_decide (is_Some (d !! _account_number s)))
      | None => Raise TypeError              (* [x in None] *)
      end
    else Ok false in
  let* device := fst (_get_device e s) in
  Ok (coordinator_has_data && bool_decide (is_Some device)).

End Switch.

(* ===================================================================== *)
(** * The host: one cooperative event loop around the entity *)
(* ===================================================================== *)

Module Host.
Import Py Data Switch.

(** What the host does with the entity.  Each event runs one method, or one
    segment of a coroutine, to completion, in the environment of that
    moment. *)
Inductive event : Type :=
| TurnOn (e : Env)                          (* a call of [async_turn_on] *)
| TurnOff (e : Env)                         (* a call of [async_turn_off] *)
| Resume (i : nat) (a : answer) (e : Env)   (* the [i]-th coroutine is answered *)
| CoordinatorUpdate (e : Env)               (* [_handle_coordinator_update] *)
| ReadIsOn (e : Env).                       (* a read of [is_on] *)

(** The entity and the coroutines started on it so far. *)
Record World : Type := {
  entity : OctopusSwitch;
  coroutines : list coroutine
}.

Definition start (m : M coroutine) (e : Env) (w : World) : World :=
  match m e (entity w) with
  | (Ok c, s) => {| entity := s; coroutines := (coroutines w ++ [c])%list |}
  | (Raise _, s) => {| entity := s; coroutines := coroutines w |}
  end.

Definition call {A} (m : M A) (e : Env) (w : World) : World :=
  {| entity := snd (m e (entity w)); coroutines := coroutines w |}.

Definition step (w : World) (ev : event) : World :=
  match ev with
  | TurnOn e => start async_turn_on e w
  | TurnOff e => start async_turn_off e w
  | Resume i a e =>
      match coroutines w !! i with
      | Some (Await _ resume) =>
          match resume a e (entity w) with
          | (Ok c, s) =>
              {| entity := s; coroutines := <[i := c]> (coroutines w) |}
          | (Raise _, s) =>
              {| entity := s; coroutines := <[i := Finished]> (coroutines w) |}
          end
      | _ => w
      end
  | CoordinatorUpdate e => call _handle_coordinator_update e w
  | ReadIsOn e => call is_on e w
  end.

Definition run (w : World) (evs : list event) : World := fold_left step evs w.

Definition created (s : OctopusSwitch) : World :=
  {| entity := s; coroutines := [] |}.

(** The calls a coroutine awaits, in order, when its awaits are answered by
    [script]; it stays suspended when the script runs out. *)
Fixpoint awaited (script : list (answer * Env)) (c : coroutine)
    (s : OctopusSwitch) : list awaitable :=
  match c with
  | Finished => []
  | Await call resume =>
      call ::
      match script with
      | [] => []
      | (a, e) :: script' =>
          match resume a e s with
          | (Ok c', s') => awaited script' c' s'
          | (Raise _, _) => []
          end
      end
  end.


End Host.

(* ===================================================================== *)
(** * The specification, in its own words *)
(* ===================================================================== *)

Module Spec.
Import Py Data Sensor Switch.

(** ** Active-product selection *)

(** A product has a [validFrom] when the key carries a timestamp; a missing
    key, [null] and the empty string all count as none, and likewise for
    [validTo]. *)
Definition has_validFrom (p : Product) (valid_from : string) : Prop :=
  get (validFrom p) = VStr valid_from /\ valid_from <> EmptyString.

Definition has_validTo (p : Product) (valid_to : string) : Prop :=
  get (validTo p) = VStr valid_to /\ valid_to <> EmptyString.

Definition no_validTo (p : Product) : Prop :=
  forall valid_to, ~ has_validTo p valid_to.

(** [validFrom <= now], and [validTo] open or [now <= validTo]. *)
Definition in_force (now : string) (p : Product) : Prop :=
  exists valid_from,
    has_validFrom p valid_from
    /\ str_le valid_from now = true
    /\ (no_validTo p
        \/ exists valid_to, has_validTo p valid_to /\ str_le now valid_to = true).

(** The head of a list bounds every key of the list. *)
Definition head_greatest (l : list Product) : Prop :=
  match l with
  | [] => True
  | p :: _ => forall q, In q l -> str_le (sort_key q) (sort_key p) = true
  end.

(** ** The midnight-aware window test *)

Definition midnight : time := Time 0 0 0 0.

(** [contains(now, from, to)], branch by branch: [to] is midnight; else
    [from <= to]; else the window crosses midnight. *)
Definition contains (now from to : time) : Prop :=
  (to = midnight ->
     from = midnight \/ (time_ge now from = true \/ time_lt now to = true))
  /\ (to <> midnight -> time_le from to = true ->
        time_le from now = true /\ time_lt now to = true)
  /\ (to <> midnight -> time_le from to = false ->
        time_ge now from = true \/ time_lt now to = true).

(** ** Time-of-use rate resolution *)

(** The window of a rule, when both of its ends parse. *)
Definition window (r : ActivationRule) : option (time * time) :=
  match _parse_time (get_default (from_time r) (VStr "00:00:00")),
        _parse_time (get_default (to_time r) (VStr "00:00:00")) with
  | Ok (Some time_from), Ok (Some time_to) => Some (time_from, time_to)
  | _, _ => None
  end.

Definition rule_contains (now : time) (r : ActivationRule) : bool :=
  match window r with
  | Some (time_from, time_to) => _is_time_between now time_from time_to
  | None => false
  end.

(** A rate in cents, parsed and divided by 100; [None] when it does not
    parse. *)
Definition rate_over_100 (v : value) : option float :=
  match float_ v with
  | Ok x => Some (float_div x hundred)
  | Raise _ => None
  end.

(** The rules of a product in scan order (timeslots in list order, the rules
    of each in list order), each with its timeslot. *)
Definition scan_order (slots : list Timeslot)
  : list (Timeslot * ActivationRule) :=
  flat_map (fun ts => map (pair ts) (default [] (activation_rules ts))) slots.

(** The first rule containing [now] whose timeslot's rate parses decides. *)
Fixpoint scan (now : time) (l : list (Timeslot * ActivationRule))
  : option float :=
  match l with
  | [] => None
  | (ts, r) :: l' =>
      if rule_contains now r then
        match rate_over_100 (get_default (rate ts) (VStr "0")) with
        | Some x => Some x
        | None => scan now l'
        end
      else scan now l'
  end.

(** The resolver of a time-of-use product: the scan, else the product's own
    [grossRate] over 100, else none. *)
Definition resolve_time_of_use (now : time) (p : Product) : option float :=
  match scan now (scan_order (default [] (timeslots p))) with
  | Some x => Some x
  | None => rate_over_100 (get_default (grossRate p) (VStr "0"))
  end.

(** Neither end of the rule makes [_parse_time] raise. *)
Definition parse_settles (r : ActivationRule) : Prop :=
  raises (_parse_time (get_default (from_time r) (VStr "00:00:00"))) = false
  /\ raises (_parse_time (get_default (to_time r) (VStr "00:00:00"))) = false.

(** ** Unit conversion *)


(** ** The optimistic toggle reconciler *)

(** The two states of the reconciler. *)
Definition Idle (s : OctopusSwitch) : Prop :=
  _is_switching s = false /\ _pending_state s = None /\ _pending_until s = None.

Definition Pending (target : bool) (deadline : datetime) (s : OctopusSwitch)
  : Prop :=
  _is_switching s = true
  /\ _pending_state s = Some target
  /\ _pending_until s = Some deadline.

(** The three pending fields agree. *)
Definition consistent (s : OctopusSwitch) : Prop :=
  (_is_switching s = true <-> _pending_state s <> None)
  /\ (_pending_state s <> None <-> _pending_until s <> None).

(** The entity with its three pending fields cleared. *)
Definition cleared (s : OctopusSwitch) : OctopusSwitch :=
  set_pending_until None (set_pending_state None (set_is_switching false s)).


(** A coroutine all of whose segments keep the pending fields in agreement. *)
Inductive preserving : coroutine -> Prop :=
| preserving_Finished : preserving Finished
| preserving_Await call resume :
    (forall a e s, consistent s -> consistent (snd (resume a e s))) ->
    (forall a e s c,
        consistent s -> fst (resume a e s) = Ok c -> preserving c) ->
    preserving (Await call resume).

(** A world whose entity and coroutines keep the pending fields in
    agreement. *)
Definition agreeing (w : Host.World) : Prop :=
  consistent (Host.entity w) /\ Forall preserving (Host.coroutines w).

Definition is_suspension_request (c : awaitable) : bool :=
  match c with
  | change_device_suspension _ _ => true
  | _ => false
  end.

(** The method and the action of a toggle towards [target]. *)
Definition turn (target : bool) : M coroutine :=
  if target then async_turn_on else async_turn_off.

Definition action_of (target : bool) : string :=
  if target then "UNSUSPEND" else "SUSPEND".

End Spec.

(* ===================================================================== *)
(** * Sample snapshots *)
(* ===================================================================== *)

Module Examples.
Import Py Data Sensor Switch.

Definition product (type_ valid_from : string) (valid_to : field)
    (gross_rate : string) (slots : option (list Timeslot)) : Product :=
  {| code := Some (VStr "TARIFF");
     name := Some (VStr "Tariff");
     description := None;
     type := Some (VStr type_);
     validFrom := Some (VStr valid_from);
     validTo := valid_to;
     grossRate := Some (VStr gross_rate);
     timeslots := slots |}.

Definition rule (from_ to_ : string) : ActivationRule :=
  {| from_time := Some (VStr from_); to_time := Some (VStr to_) |}.

Definition timeslot (name_ rate_ : string) (rules : list ActivationRule)
  : Timeslot :=
  {| timeslot_name := Some (VStr name_);
     rate := Some (VStr rate_);
     activation_rules := Some rules |}.

Definition account (electricity : list Product) (devs : list Device)
  : AccountData :=
  {| products := Some electricity;
     gas_products := None;
     meter := None;
     gas_meter := None;
     malo_number := None;
     melo_number := None;
     gas_malo_number := None;
     gas_melo_number := None;
     electricity_balance := None;
     gas_balance := None;
     devices := Some devs |}.

Definition snapshot (a : AccountData) : Coordinator :=
  {| data := Some {[ "A-12345" := a ]}; last_update_success := true |}.

(** A tariff that ends at the very instant [ending_now]. *)
Definition ending_now : string := "2025-01-01T00:00:00".
Definition ending_product : Product :=
  product "Simple" "2024-01-01T00:00:00" (Some (VStr ending_now)) "2550" None.

(** A time-of-use tariff with one rule whose hour does not fit a C [int]. *)
Definition overflowing_product : Product :=
  product "TimeOfUse" "2024-01-01T00:00:00" None "3000"
    (Some [timeslot "GO" "1500" [rule "2147483648:00:00" "06:00:00"]]).

Definition morning : string := "2025-03-01T10:00:00.000000".
Definition ten_o_clock : time := Time 10 0 0 0.

(** A plain tariff of 2550 cents. *)
Definition simple_product : Product :=
  product "Simple" "2024-01-01T00:00:00" None "2550" None.


(** A time-of-use tariff whose only timeslot, active all day, carries a rate
    that is no number. *)
Definition bad_rate_product : Product :=
  product "TimeOfUse" "2024-01-01T00:00:00" None "3000"
    (Some [timeslot "GO" "abc" [rule "00:00:00" "00:00:00"]]).

(** A coordinator that has no snapshot yet. *)
Definition no_snapshot : Coordinator :=
  {| data := None; last_update_success := true |}.

Definition a_switch : OctopusSwitch :=
  {| _device_id := VStr "device-1";
     _account_number := "A-12345";
     _current_state := false;
     _is_switching := false;
     _pending_state := None;
     _pending_until := None |}.

(** The device of [a_switch], active or suspended, and the environment at
    instant [t] whose snapshot holds it. *)
Definition device (active : bool) : Device :=
  {| id := Some (VStr "device-1");
     device_name := Some (VStr "Car");
     provider := None;
     status := Some {| isSuspended := Some (negb active); currentState := None |} |}.

Definition active_at (t : datetime) : Env :=
  {| coordinator := snapshot (account [] [device true]); now := t |}.

Definition suspended_at (t : datetime) : Env :=
  {| coordinator := snapshot (account [] [device false]); now := t |}.

(** [a_switch] five minutes before the deadline of a turn_on. *)
Definition pending_switch : OctopusSwitch :=
  {| _device_id := VStr "device-1";
     _account_number := "A-12345";
     _current_state := false;
     _is_switching := true;
     _pending_state := Some true;
     _pending_until := Some 300000000 |}.



(** A device without the key ["id"], ahead of the device of [a_switch]. *)
Definition nameless_device : Device :=
  {| id := None; device_name := Some (VStr "Heat pump"); provider := None;
     status := None |}.

Definition nameless_at (t : datetime) : Env :=
  {| coordinator := snapshot (account [] [nameless_device; device true]);
     now := t |}.

(** Two tariffs in force with the same [validFrom]. *)
Definition first_of_two : Product :=
  product "Simple" "2024-01-01T00:00:00" None "2550" None.
Definition second_of_two : Product :=
  product "Simple" "2024-01-01T00:00:00" None "2990" None.
Definition older_product : Product :=
  product "Simple" "2023-01-01T00:00:00" None "2100" None.

End Examples.

(* ===================================================================== *)
(** * switch.py: the set-up of the platform *)
(* ===================================================================== *)

Module Setup.
Import Py Data Switch.

(** [async_setup_entry] reads, besides the coordinator,
    [config_entry.data.get("account_numbers", [])] ([None] when the key is
    missing) and [data["account_number"]].  A [gmap] keeps no insertion
    order: [keys] is [list(coordinator.data.keys())]. *)





End Setup.

(* ===================================================================== *)
(** * sensor.py: the balance sensors *)
(* ===================================================================== *)

Module Balance.
Import Py Data Sensor.

(** The key that a balance sensor reads: ["electricity_balance"] for
    [OctopusElectricityBalanceSensor], ["gas_balance"] for
    [OctopusGasBalanceSensor]. *)
Definition balance_key (f : fuel) : string :=
  match f with
  | Electricity => "electricity_balance"
  | Gas => "gas_balance"
  end.

Definition balance_of (f : fuel) (account_data : AccountData)
  : option float :=
  match f with
  | Electricity => electricity_balance account_data
  | Gas => gas_balance account_data
  end.

(** [native_value] of the two sensors: [None] without the account, else
    [account_data.get(key, 0.0)]. *)
Definition native_value (f : fuel) (account_number : string)
    (coordinator : Coordinator) : option float :=
  if data_falsy coordinator || negb (data_is_dict coordinator) then None
  else
    match data coordinator with
    | None => None
    | Some d =>
        match d !! account_number with
        | None => None
        | Some account_data =>
            Some (default (S754_zero false) (balance_of f account_data))
        end
    end.

End Balance.

(* ===================================================================== *)
(** * Notions for the properties of the remaining code *)
(* ===================================================================== *)

Module Notions.
Import Py Data Sensor Switch Host Spec.


(** The keys that the loop over the activation rules of
    [_update_attributes] writes. *)
Definition active_keys : list string :=
  ["active_timeslot"; "active_timeslot_rate";
   "active_timeslot_from"; "active_timeslot_to"].

(** The keys that every attribute dict of a price sensor holds. *)
Definition standing_keys : list string :=
  ["code"; "name"; "description"; "type"; "valid_from"; "valid_to";
   "meter_id"; "meter_number"; "meter_type"; "account_number"].

(** The dict literal [product_attributes] of [_update_attributes]. *)
Definition product_attributes_of (f : fuel) (account_number : string)
    (account_data : AccountData) (p : Product) : gmap string attr :=
  <["active_tariff_type" := AValue (get_default (type p) unknown)]>
  (<["valid_to" := AValue (get_default (validTo p) unknown)]>
  (<["valid_from" := AValue (get_default (validFrom p) unknown)]>
  (<["type" := AValue (get_default (type p) unknown)]>
  (<["description" := AValue (get_default (description p) unknown)]>
  (<["name" := AValue (get_default (name p) unknown)]>
  (<["code" := AValue (get_default (code p) unknown)]>
     (with_meter (meter_info f account_data)
                 (default_attributes f account_number)))))))).

(** The end of [_update_attributes]: the market location numbers and the
    balance of the account. *)
Definition account_attributes (f : fuel) (account_data : AccountData)
    (product_attributes : gmap string attr) : gmap string attr :=
  let product_attributes :=
    match f with
    | Electricity =>
        <["melo_number" :=
            AValue (get_default (melo_number account_data) unknown)]>
        (<["malo_number" :=
            AValue (get_default (malo_number account_data) unknown)]>
           product_attributes)
    | Gas =>
        <["gas_melo_number" :=
            AValue (get_default (gas_melo_number account_data) unknown)]>
        (<["gas_malo_number" :=
            AValue (get_default (gas_malo_number account_data) unknown)]>
           product_attributes)
    end in
  match f with
  | Electricity =>
      match electricity_balance account_data with
      | Some b => <["electricity_balance" := AMoney b]> product_attributes
      | None => product_attributes
      end
  | Gas =>
      match gas_balance account_data with
      | Some b => <["gas_balance" := AMoney b]> product_attributes
      | None => product_attributes
      end
  end.

(** The keys written after the loops of [_update_attributes]. *)
Definition closing_keys : list string :=
  ["timeslots"; "malo_number"; "melo_number"; "gas_malo_number";
   "gas_melo_number"; "electricity_balance"; "gas_balance"].

(** ** The switch *)

(** The devices that the snapshot lists for an account: none without a
    snapshot, without the account or without the key ["devices"]. *)
Definition devices_of (c : Coordinator) (account_number : string)
  : list Device :=
  match data c with
  | Some d =>
      match d !! account_number with
      | Some account_data => default [] (devices account_data)
      | None => []
      end
  | None => []
  end.

(** A device that carries an id, and not [device_id]. *)
Definition other_id (device_id : value) (d : Device) : Prop :=
  exists i, id d = Some i /\ i <> device_id.


Definition returned (a : answer) : bool :=
  match a with
  | Returns _ => true
  | Raises => false
  end.

(** The call of [async_turn_on] or [async_turn_off] as an event. *)
Definition press (target : bool) (e : Env) : event :=
  if target then TurnOn e else TurnOff e.

(** What a coroutine may await on behalf of the device [device_id]: the
    suspension or unsuspension of that very device, a sleep, a refresh. *)
Definition own_call (device_id : value) (c : awaitable) : Prop :=
  match c with
  | change_device_suspension i action =>
      i = device_id /\ (action = "SUSPEND" \/ action = "UNSUSPEND")
  | _ => True
  end.

(** The entity keeps the device and the account it was built for. *)
Definition same_identity (s s' : OctopusSwitch) : Prop :=
  _device_id s' = _device_id s /\ _account_number s' = _account_number s.

(** A coroutine that awaits only calls of its own device and whose segments
    leave the identity of the entity alone. *)
Inductive own_device (device_id : value) : coroutine -> Prop :=
| own_device_Finished : own_device device_id Finished
| own_device_Await call resume :
    own_call device_id call ->
    (forall a e s, same_identity s (snd (resume a e s))) ->
    (forall a e s c,
        _device_id s = device_id -> fst (resume a e s) = Ok c ->
        own_device device_id c) ->
    own_device device_id (Await call resume).



End Notions.

(* ===================================================================== *)
(** * More sample snapshots *)
(* ===================================================================== *)

Module MoreExamples.
Import Py Data Sensor Switch Host Spec Examples Notions.

(** A plain tariff without the key ["grossRate"]. *)
Definition unpriced_product : Product :=
  {| code := Some (VStr "TARIFF");
     name := None;
     description := None;
     type := Some (VStr "Simple");
     validFrom := Some (VStr "2024-01-01T00:00:00");
     validTo := None;
     grossRate := None;
     timeslots := None |}.

(** A time-of-use tariff two of whose timeslots contain ten o'clock. *)
Definition overlapping_product : Product :=
  product "TimeOfUse" "2024-01-01T00:00:00" None "3000"
    (Some [timeslot "DAY" "1000" [rule "06:00:00" "22:00:00"];
           timeslot "ALL" "4000" [rule "00:00:00" "00:00:00"]]).


(** An account with a plain tariff and a balance of 12 euros. *)
Definition credited_account : AccountData :=
  {| products := Some [simple_product];
     gas_products := None;
     meter := None;
     gas_meter := None;
     malo_number := None;
     melo_number := None;
     gas_malo_number := None;
     gas_melo_number := None;
     electricity_balance := Some (float_of_Z 12);
     gas_balance := None;
     devices := None |}.

End MoreExamples.

(* ===================================================================== *)
(** * Properties of the Python fragment *)
(* ===================================================================== *)

Section Fragment.
Import Py.

Example int_accepts :
  int_ "08" = Ok 8 /\ int_ " +1_0 " = Ok 10 /\ int_ "-3" = Ok (-3).
Proof. repeat split. Qed.

Example int_refuses :
  int_ "1__0" = Raise ValueError /\ int_ "+ 5" = Raise ValueError
  /\ int_ "0.5" = Raise ValueError /\ int_ "12a" = Raise ValueError.
Proof. repeat split. Qed.

Example float_accepts :
  float_ (VStr "2550") = Ok (float_of_Z 2550)
  /\ float_ (VStr " 2.55e3 ") = Ok (float_of_Z 2550)
  /\ float_ (VStr "0.1") = Ok (S754_finite false 7205759403792794 (-56))
  /\ float_ (VStr "-inf") = Ok (S754_infinity true)
  /\ float_ (VStr "1e400") = Ok (S754_infinity false).
Proof. repeat split; vm_compute; reflexivity. Qed.

Example float_refuses :
  float_ (VStr "abc") = Raise ValueError
  /\ float_ (VStr "12,5") = Raise ValueError
  /\ float_ (VStr "1_.5") = Raise ValueError
  /\ float_ VNone = Raise TypeError.
Proof. repeat split. Qed.

Example time_refuses :
  time_ 24 0 0 = Raise ValueError
  /\ time_ 0 60 0 = Raise ValueError
  /\ time_ 2147483648 0 0 = Raise OverflowError.
Proof. repeat split. Qed.

Lemma ascii_compare_refl a : Ascii.compare a a = Eq.
Proof. unfold Ascii.compare. apply N.compare_refl. Qed.

Lemma string_compare_refl s : String.compare s s = Eq.
Proof.
  induction s as [|c s IH]; simpl; [reflexivity|].
  now rewrite ascii_compare_refl.
Qed.

Lemma str_le_refl s : str_le s s = true.
Proof. unfold str_le, String.leb. now rewrite string_compare_refl. Qed.

Lemma str_le_total a b : str_le a b = false -> str_le b a = true.
Proof.
  intros H. destruct (String.leb_total a b) as [Hab|Hba]; [|exact Hba].
  unfold str_le in H. congruence.
Qed.

Lemma str_le_trans a b c :
  str_le a b = true -> str_le b c = true -> str_le a c = true.
Proof.
  unfold str_le, String.leb.
  revert b c. induction a as [|x a IH]; intros [|y b] [|z c]; simpl;
    try congruence.
  unfold Ascii.compare.
  destruct (N.compare_spec (N_of_ascii x) (N_of_ascii y)) as [Exy|Lxy|Gxy];
    destruct (N.compare_spec (N_of_ascii y) (N_of_ascii z)) as [Eyz|Lyz|Gyz];
    destruct (N.compare_spec (N_of_ascii x) (N_of_ascii z)) as [Exz|Lxz|Gxz];
    try congruence; try lia.
  intros; now apply (IH b c).
Qed.

End Fragment.

Section Selection.
Import Py Data Sensor Spec Examples.

Lemma truthy_VStr s : truthy (VStr s) = true <-> s <> EmptyString.
Proof. destruct s; simpl; split; congruence. Qed.

Lemma no_validTo_iff p : no_validTo p <-> truthy (get (validTo p)) = false.
Proof.
  unfold no_validTo, has_validTo. split.
  - intros H. destruct (get (validTo p)) as [|s] eqn:E; [reflexivity|].
    destruct (truthy (VStr s)) eqn:T; [|reflexivity].
    exfalso. apply (H s). split; [reflexivity|]. now apply truthy_VStr.
  - intros H s [E Hs]. rewrite E in H. apply truthy_VStr in Hs. congruence.
Qed.

(** The filter of the source keeps exactly the products in force. *)
Lemma currently_valid_in_force now p :
  currently_valid now p = true <-> in_force now p.
Proof.
  unfold currently_valid, in_force, has_validFrom. split.
  - destruct (get (validFrom p)) as [|vf] eqn:Ef; [discriminate|].
    destruct (truthy (VStr vf)) eqn:Tf; cbn [negb]; [|discriminate].
    intros H. apply andb_true_iff in H as [H1 H2].
    exists vf. split; [split; [reflexivity|now apply truthy_VStr]|].
    split; [exact H1|].
    destruct (get (validTo p)) as [|vt] eqn:Et.
    + left. apply no_validTo_iff. now rewrite Et.
    + destruct (truthy (VStr vt)) eqn:Tt; cbn [negb orb] in H2.
      * right. exists vt. split; [|exact H2].
        split; [exact Et|now apply truthy_VStr].
      * left. apply no_validTo_iff. now rewrite Et.
  - intros (vf & [Ef Hf] & Hle & Hto). rewrite Ef.
    apply truthy_VStr in Hf. rewrite Hf. cbn [negb]. rewrite Hle. cbn [andb].
    destruct Hto as [Hno|(vt & [Et Hvt] & Hle')].
    + apply no_validTo_iff in Hno.
      destruct (get (validTo p)) as [|vt]; [reflexivity|].
      now rewrite Hno.
    + rewrite Et, Hle'. apply orb_true_r.
Qed.

Lemma in_insert_desc x p l : In x (insert_desc p l) <-> x = p \/ In x l.
Proof.
  induction l as [|q l IH]; simpl.
  - split; [intros [->|[]]; now left | intros [->|[]]; now left].
  - destruct (str_le (sort_key q) (sort_key p)); simpl.
    + split; [intros [->|H]; [now left|now right] | intros [->|H]; [now left|now right]].
    + rewrite IH. split.
      * intros [->|[->|H]]; [right; now left | now left | right; now right].
      * intros [->|[->|H]]; [right; now left | now left | right; now right].
Qed.

Lemma in_sort_desc x l : In x (sort_desc l) <-> In x l.
Proof.
  induction l as [|p l IH]; simpl; [reflexivity|].
  rewrite in_insert_desc, IH. split; intros [H|H]; auto.
Qed.

Lemma insert_desc_head_greatest p l :
  head_greatest l -> head_greatest (insert_desc p l).
Proof.
  destruct l as [|q l]; simpl.
  - intros _ x [->|[]]. apply str_le_refl.
  - intros Hq. destruct (str_le (sort_key q) (sort_key p)) eqn:E; simpl.
    + intros x [->|Hx]; [apply str_le_refl|].
      apply str_le_trans with (sort_key q); [now apply Hq|exact E].
    + intros x [->|Hx]; [apply str_le_refl|].
      apply in_insert_desc in Hx as [->|Hx].
      * now apply str_le_total.
      * apply Hq. now right.
Qed.

Lemma sort_desc_head_greatest l : head_greatest (sort_desc l).
Proof.
  induction l as [|p l IH]; simpl; [exact I|].
  now apply insert_desc_head_greatest.
Qed.

(** [sort_desc] is the stable descending sort: a permutation, in
    descending order of the keys, that keeps the order of the products with
    a same key.  No other list has the three properties, so it is what
    [list.sort(key=..., reverse=True)] leaves in the list. *)
Lemma insert_desc_permutation p l : Permutation (insert_desc p l) (p :: l).
Proof.
  induction l as [|q l IH]; cbn [insert_desc]; [reflexivity|].
  destruct (str_le (sort_key q) (sort_key p)); [reflexivity|].
  rewrite IH. apply perm_swap.
Qed.

Lemma sort_desc_permutation l : Permutation (sort_desc l) l.
Proof.
  induction l as [|p l IH]; cbn [sort_desc]; [reflexivity|].
  rewrite insert_desc_permutation. now apply perm_skip.
Qed.

Lemma insert_desc_sorted p l :
  StronglySorted (fun a b => str_le (sort_key b) (sort_key a) = true) l ->
  StronglySorted (fun a b => str_le (sort_key b) (sort_key a) = true)
                 (insert_desc p l).
Proof.
  induction 1 as [|q l Hs IH Hq]; cbn [insert_desc].
  - constructor; constructor.
  - destruct (str_le (sort_key q) (sort_key p)) eqn:E.
    + constructor; [now constructor|].
      constructor; [exact E|].
      rewrite List.Forall_forall in *. intros x Hx.
      apply str_le_trans with (sort_key q); [now apply Hq|exact E].
    + constructor; [exact IH|].
      rewrite List.Forall_forall in *. intros x Hx.
      apply in_insert_desc in Hx as [->|Hx]; [now apply str_le_total|now apply Hq].
Qed.

Lemma sort_desc_sorted l :
  StronglySorted (fun a b => str_le (sort_key b) (sort_key a) = true)
                 (sort_desc l).
Proof.
  induction l as [|p l IH]; cbn [sort_desc]; [constructor|].
  now apply insert_desc_sorted.
Qed.

Lemma insert_desc_stable k p l :
  List.filter (fun q => String.eqb (sort_key q) k) (insert_desc p l)
  = List.filter (fun q => String.eqb (sort_key q) k) (p :: l).
Proof.
  induction l as [|q l IH]; cbn [insert_desc]; [reflexivity|].
  destruct (str_le (sort_key q) (sort_key p)) eqn:E; [reflexivity|].
  cbn [List.filter] in *. rewrite IH.
  destruct (String.eqb (sort_key q) k) eqn:Eq, (String.eqb (sort_key p) k) eqn:Ep;
    try reflexivity.
  apply String.eqb_eq in Eq, Ep. rewrite Eq, Ep, str_le_refl in E. discriminate.
Qed.

Lemma sort_desc_stable k l :
  List.filter (fun q => String.eqb (sort_key q) k) (sort_desc l)
  = List.filter (fun q => String.eqb (sort_key q) k) l.
Proof.
  induction l as [|p l IH]; cbn [sort_desc]; [reflexivity|].
  rewrite insert_desc_stable. cbn [List.filter]. now rewrite IH.
Qed.

Lemma in_valid_products now x products :
  In x (valid_products now products) <-> In x products /\ in_force now x.
Proof.
  unfold valid_products. rewrite filter_In. now rewrite currently_valid_in_force.
Qed.

(** The products that are sorted all carry a non-empty string under
    [validFrom], which is their sort key. *)
Lemma in_force_sort_key now p :
  in_force now p -> has_validFrom p (sort_key p).
Proof.
  intros (vf & [Ef Hf] & _). unfold has_validFrom, sort_key.
  unfold get, get_default in *. destruct (validFrom p) as [v|]; [|discriminate].
  subst v. now split.
Qed.



Example _parse_time_cases :
  _parse_time (VStr "22:00:00") = Ok (Some (Time 22 0 0 0))
  /\ _parse_time (VStr "24:00:00") = Ok None
  /\ _parse_time (VStr "22:00") = Ok None
  /\ _parse_time (VStr "22:00:00.5") = Ok None
  /\ _parse_time VNone = Ok None.
Proof. repeat split. Qed.

Example current_product_latest_first :
  current_product "2025-03-01T10:00:00"
    [older_product; first_of_two; second_of_two] = Some first_of_two
  /\ current_product "2025-03-01T10:00:00"
       [second_of_two; older_product; first_of_two] = Some second_of_two
  /\ current_product "2022-03-01T10:00:00"
       [older_product; first_of_two; second_of_two] = None.
Proof. repeat split. Qed.

(** The selection, in one statement: membership, validity and maximality of
    the chosen product, and emptiness of the filter otherwise. *)
Lemma current_product_spec now products :
  match current_product now products with
  | Some p =>
      In p products /\ in_force now p
      /\ forall q, In q products -> in_force now q ->
                   str_le (sort_key q) (sort_key p) = true
  | None => forall q, In q products -> ~ in_force now q
  end.
Proof.
  unfold current_product.
  pose proof (sort_desc_head_greatest (valid_products now products)) as Hmax.
  destruct (sort_desc (valid_products now products)) as [|p l] eqn:E.
  - intros q Hq Hf.
    assert (In q (sort_desc (valid_products now products))) as Hin
      by (apply in_sort_desc, in_valid_products; now split).
    now rewrite E in Hin.
  - assert (In p (valid_products now products)) as Hp
      by (apply in_sort_desc; rewrite E; now left).
    apply in_valid_products in Hp as [Hp Hf].
    split; [exact Hp|]. split; [exact Hf|].
    intros q Hq Hqf. apply Hmax. rewrite <- E.
    apply in_sort_desc, in_valid_products. now split.
Qed.

(** C1: the selector returns a product of the list that is in force and
    whose validFrom is lexicographically greatest among the products in
    force (those with a validFrom, validFrom <= now, and no validTo or
    now <= validTo); it returns none exactly when no product is in force;
    a product without validFrom is never returned. *)
Theorem current_product_greatest_validFrom (now : string) (products : list Product) :
  match current_product now products with
  | Some p =>
      In p products
      /\ in_force now p
      /\ exists valid_from,
           has_validFrom p valid_from
           /\ forall q valid_from_q,
                In q products -> in_force now q -> has_validFrom q valid_from_q ->
                str_le valid_from_q valid_from = true
  | None => forall q, In q products -> ~ in_force now q
  end.
Proof.
  pose proof (current_product_spec now products) as H.
  destruct (current_product now products) as [p|]; [|exact H].
  destruct H as (Hin & Hf & Hmax). split; [exact Hin|]. split; [exact Hf|].
  exists (sort_key p). split; [now apply in_force_sort_key with now|].
  intros q vq Hq Hqf [Eq _].
  specialize (Hmax q Hq Hqf).
  apply in_force_sort_key in Hqf as [Eq' _]. rewrite Eq in Eq'.
  injection Eq' as ->. exact Hmax.
Qed.
End Selection.

Section Interval.
Import Py Data Sensor Spec Examples.

(** C8, as stated, fails: the product whose validTo equals now is returned
    by the selector. *)
Lemma validTo_equal_now_is_selected :
  has_validTo ending_product ending_now
  /\ current_product ending_now [ending_product] = Some ending_product.
Proof. split; [split; [reflexivity|discriminate]|reflexivity]. Qed.

(** C8, amended: the validity interval is closed at validTo.  A product with
    validFrom <= now whose validTo equals now is in force at now, and the
    selector, on any list that holds it, returns a product (never none)
    whose validFrom is at least as great. *)
Theorem validTo_is_inclusive (now : string) (p : Product) (valid_from : string) :
  has_validFrom p valid_from ->
  str_le valid_from now = true ->
  has_validTo p now ->
  in_force now p
  /\ currently_valid now p = true
  /\ forall products, In p products ->
       exists q, current_product now products = Some q
                 /\ In q products
                 /\ str_le valid_from (sort_key q) = true.
Proof.
  intros Hf Hle Hto.
  assert (in_force now p) as Hin.
  { exists valid_from. split; [exact Hf|]. split; [exact Hle|].
    right. exists now. split; [exact Hto|apply str_le_refl]. }
  split; [exact Hin|]. split; [now apply currently_valid_in_force|].
  intros products Hp.
  pose proof (current_product_spec now products) as H.
  destruct (current_product now products) as [q|].
  - destruct H as (Hq & _ & Hmax). exists q. split; [reflexivity|].
    split; [exact Hq|].
    specialize (Hmax p Hp Hin).
    apply in_force_sort_key in Hin as [E _]. destruct Hf as [E' _].
    rewrite E' in E. injection E as ->. exact Hmax.
  - exfalso. exact (H p Hp Hin).
Qed.

Lemma validTo_is_inclusive_witness :
  in_force ending_now ending_product
  /\ currently_valid ending_now ending_product = true
  /\ forall products, In ending_product products ->
       exists q, current_product ending_now products = Some q
                 /\ In q products
                 /\ str_le "2024-01-01T00:00:00" (sort_key q) = true.
Proof.
  apply (validTo_is_inclusive ending_now ending_product "2024-01-01T00:00:00").
  - split; [reflexivity|discriminate].
  - reflexivity.
  - split; [reflexivity|discriminate].
Defined.

End Interval.

Section Window.
Import Py Data Sensor Spec.

Lemma is_midnight_iff t :
  microsecond t = 0 -> (is_midnight t = true <-> t = midnight).
Proof.
  destruct t as [h m s us]. unfold is_midnight, midnight. simpl. intros ->.
  rewrite !andb_true_iff, !Z.eqb_eq. split.
  - now intros [[-> ->] ->].
  - intros E. injection E as -> -> ->. auto.
Qed.

(** What [_parse_time] returns is a time of day in whole seconds. *)
Lemma _parse_time_whole_seconds v t :
  _parse_time v = Ok (Some t) ->
  microsecond t = 0
  /\ 0 <= hour t < 24 /\ 0 <= minute t < 60 /\ 0 <= second t < 60.
Proof.
  unfold _parse_time. destruct v as [|s]; [discriminate|].
  destruct (split_colon s) as [|a [|b [|c [|d l]]]]; try discriminate.
  destruct (int_ a) as [h|e]; [|destruct e; discriminate].
  destruct (int_ b) as [m|e]; [|destruct e; discriminate].
  destruct (int_ c) as [x|e]; [|destruct e; discriminate].
  unfold time_, bind, try_except.
  destruct (negb _); [discriminate|].
  destruct (_ && _) eqn:E; [|discriminate].
  intros H. injection H as <-. simpl.
  rewrite !andb_true_iff in E. lia.
Qed.

(** C2: with [from] and [to] times of day in whole seconds (what
    [_parse_time] yields), [_is_time_between now from to] is true exactly
    when the window test of the specification holds: if [to] is midnight,
    [from] is midnight or [now >= from] or [now < to]; else if [from <= to],
    [from <= now < to]; else [now >= from] or [now < to].  In particular
    22:00-06:00 contains 23:30 and 02:00 but not 12:00, 00:00-00:00 contains
    every time, and 08:00-00:00 contains 08:00:00 and 23:59:59 but not
    07:59:59. *)
Theorem _is_time_between_contains :
  (forall now from to : time,
     microsecond from = 0 -> microsecond to = 0 ->
     (_is_time_between now from to = true <-> contains now from to))
  /\ _is_time_between (Time 23 30 0 0) (Time 22 0 0 0) (Time 6 0 0 0) = true
  /\ _is_time_between (Time 2 0 0 0) (Time 22 0 0 0) (Time 6 0 0 0) = true
  /\ _is_time_between (Time 12 0 0 0) (Time 22 0 0 0) (Time 6 0 0 0) = false
  /\ (forall now, _is_time_between now midnight midnight = true)
  /\ _is_time_between (Time 8 0 0 0) (Time 8 0 0 0) midnight = true
  /\ _is_time_between (Time 23 59 59 0) (Time 8 0 0 0) midnight = true
  /\ _is_time_between (Time 7 59 59 0) (Time 8 0 0 0) midnight = false.
Proof.
  split; [|repeat split].
  intros now from to Hf Ht. unfold _is_time_between, contains.
  pose proof (is_midnight_iff to Ht) as Hto.
  pose proof (is_midnight_iff from Hf) as Hfrom.
  destruct (is_midnight to) eqn:Mt.
  - assert (to = midnight) as Eto by now apply Hto.
    destruct (is_midnight from) eqn:Mf.
    + split; [|reflexivity]. intros _.
      split; [intros _; left; now apply Hfrom|].
      split; intros Hne; now destruct Hne.
    + rewrite orb_true_iff. split.
      * intros H. split; [intros _; now right|].
        split; intros Hne; now destruct Hne.
      * intros (H & _ & _). destruct (H Eto) as [E|H']; [|exact H'].
        apply Hfrom in E. discriminate.
  - assert (to <> midnight) as Nto
      by (intros E; apply Hto in E; discriminate).
    destruct (time_le from to) eqn:L.
    + rewrite andb_true_iff. split.
      * intros H. split; [intros E; now destruct Nto|].
        split; [intros _ _; exact H|intros _ C; discriminate].
      * intros (_ & H & _). now apply H.
    + rewrite orb_true_iff. split.
      * intros H. split; [intros E; now destruct Nto|].
        split; [intros _ C; discriminate|intros _ _; exact H].
      * intros (_ & _ & H). now apply H.
Qed.

Lemma _is_time_between_contains_witness :
  _is_time_between (Time 23 30 0 0) (Time 22 0 0 0) (Time 6 0 0 0) = true
  <-> contains (Time 23 30 0 0) (Time 22 0 0 0) (Time 6 0 0 0).
Proof.
  apply (proj1 _is_time_between_contains
           (Time 23 30 0 0) (Time 22 0 0 0) (Time 6 0 0 0));
    reflexivity.
Defined.

End Window.

Section Resolution.
Import Py Data Sensor Spec Examples.

(** [float] raises nothing but [ValueError] and [TypeError], so the handlers
    around the rate conversion catch all it can raise. *)
Lemma float_div_100_guarded (v : value) (h : result (option float)) :
  try_except (let* x := float_div_100 v in Ok (Some x)) value_or_type_error h
  = match rate_over_100 v with
    | Some x => Ok (Some x)
    | None => h
    end.
Proof.
  unfold float_div_100, rate_over_100, float_.
  destruct v as [|s]; [reflexivity|].
  destruct (float_of_chars _); reflexivity.
Qed.

Lemma for_rule_scan now ts rules :
  Forall parse_settles rules ->
  for_rule now ts rules = Ok (scan now (map (pair ts) rules)).
Proof.
  induction 1 as [|r rules [Hf Ht] _ IH]; [reflexivity|].
  cbn [for_rule map scan]. unfold rule_contains, window.
  destruct (_parse_time (get_default (from_time r) (VStr "00:00:00")))
    as [f|]; [|discriminate].
  destruct (_parse_time (get_default (to_time r) (VStr "00:00:00")))
    as [t|]; [|discriminate].
  cbn [bind].
  destruct f as [f|], t as [t|]; try exact IH.
  destruct (_is_time_between now f t); [|exact IH].
  rewrite float_div_100_guarded.
  destruct (rate_over_100 _); [reflexivity|exact IH].
Qed.

Lemma scan_app now l1 l2 :
  scan now (l1 ++ l2) =
  match scan now l1 with
  | Some x => Some x
  | None => scan now l2
  end.
Proof.
  induction l1 as [|[ts r] l1 IH]; [reflexivity|].
  cbn [app scan]. destruct (rule_contains now r); [|exact IH].
  destruct (rate_over_100 _); [reflexivity|exact IH].
Qed.

Lemma for_timeslot_scan now slots :
  Forall (fun '(_, r) => parse_settles r) (scan_order slots) ->
  for_timeslot now slots = Ok (scan now (scan_order slots)).
Proof.
  induction slots as [|ts slots IH]; [reflexivity|].
  unfold scan_order. cbn [flat_map]. fold (scan_order slots).
  intros H. apply Forall_app in H as [H1 H2].
  cbn [for_timeslot]. rewrite for_rule_scan.
  - cbn [bind]. rewrite scan_app.
    destruct (scan now (map (pair ts) _)); [reflexivity|now apply IH].
  - apply List.Forall_forall. intros r Hr.
    rewrite List.Forall_forall in H1. apply (H1 (ts, r)). now apply in_map.
Qed.

(** The resolution of a time-of-use product when no time string of its rules
    makes [_parse_time] raise: the scan in list order, the fall-back on
    [grossRate], else none. *)
Lemma product_rate_time_of_use now p :
  get (type p) = VStr "TimeOfUse" ->
  Forall (fun '(_, r) => parse_settles r)
         (scan_order (default [] (timeslots p))) ->
  product_rate now p = Ok (resolve_time_of_use now p).
Proof.
  intros Ht Hs. unfold product_rate, resolve_time_of_use, _get_active_timeslot_rate.
  assert (product_falsy p = false) as ->.
  { unfold product_falsy, get, get_default in *.
    destruct (type p); [|discriminate].
    destruct (code p), (name p), (description p); reflexivity. }
  rewrite Ht.
  change (value_eqb (VStr "TimeOfUse") (VStr "Simple")) with false.
  change (value_eqb (VStr "TimeOfUse") (VStr "TimeOfUse")) with true.
  cbv iota.
  destruct (timeslots p) as [slots|].
  - change (default [] (Some slots)) with slots in *.
    rewrite (for_timeslot_scan now slots Hs). cbn [bind].
    destruct (scan now (scan_order slots)); [reflexivity|].
    rewrite float_div_100_guarded. now destruct (rate_over_100 _).
  - change (default [] None) with (@nil Timeslot).
    cbn [bind scan_order flat_map scan].
    rewrite float_div_100_guarded. now destruct (rate_over_100 _).
Qed.

(** C3 fails on the code where a time string has a field beyond the range of
    a C [int]: [time(...)] raises [OverflowError], which the handler of
    [_parse_time] does not name; the rule is not skipped and the sensor
    raises instead of falling back on the product's [grossRate]. *)
Theorem native_value_overflowing_rule :
  _parse_time (VStr "2147483648:00:00") = Raise OverflowError
  /\ native_value Electricity "A-12345"
       (snapshot (account [overflowing_product] [])) morning ten_o_clock
     = Raise OverflowError
  /\ rate_over_100 (get_default (grossRate overflowing_product) (VStr "0"))
     = Some (float_of_Z 30).
Proof. repeat split; vm_compute; reflexivity. Qed.

End Resolution.

Section Conversion.
Import Py Data Sensor Spec Examples.

Lemma float_div_100_inv v r :
  float_div_100 v = Ok r ->
  exists x, float_ v = Ok x /\ r = float_div x hundred.
Proof.
  unfold float_div_100. destruct (float_ v) as [x|e]; [|discriminate].
  cbn [bind]. intros H. injection H as <-. now exists x.
Qed.








(** C6 fails on the code.  [_update_attributes] converts the rate of the
    active timeslot outside any [try]: a rate string that is no number
    raises [ValueError] out of it, where [native_value] guards the same
    conversion and falls back on [grossRate].  [available] of the switch
    tests [account in coordinator.data] without the [isinstance] guard that
    the sensors have: with no snapshot it raises [TypeError], where the
    sensor answers false.  And [is_on] raises [KeyError] when the snapshot
    lists a device without ["id"] ahead of the device of the switch. *)
Theorem read_paths_that_raise :
  _update_attributes Electricity "A-12345"
    (snapshot (account [bad_rate_product] [])) morning ten_o_clock
  = Raise ValueError
  /\ native_value Electricity "A-12345"
       (snapshot (account [bad_rate_product] [])) morning ten_o_clock
     = Ok (Some (float_of_Z 30))
  /\ Switch.available {| Switch.coordinator := no_snapshot; Switch.now := 0 |}
       a_switch
     = Raise TypeError
  /\ Sensor.available "A-12345" no_snapshot = false
  /\ fst (Switch.is_on (nameless_at 0) a_switch) = Raise KeyError.
Proof. repeat split; vm_compute; reflexivity. Qed.

End Conversion.

Section Reconciler.
Import Py Data Switch Host Spec Examples.

#[local] Arguments _get_device : simpl never.

(** [_get_device] only reads. *)
Lemma _get_device_reads e s : snd (_get_device e s) = s.
Proof.
  unfold _get_device, mbind, the_coordinator, self, ret, lift.
  destruct (data (coordinator e)); [|reflexivity].
  destruct (data_falsy (coordinator e)); [reflexivity|].
  destruct (match _ !! _ with Some a => _ | None => _ end); reflexivity.
Qed.



Lemma _get_device_eq e s : _get_device e s = (fst (_get_device e s), s).
Proof. rewrite <- (_get_device_reads e s) at 3. now destruct (_get_device e s). Qed.







(** ** Agreement of the pending fields *)

Ltac run_method :=
  unfold _handle_coordinator_update, is_on, toggle, on_failure,
    _update_attributes, async_write_ha_state, reset_pending;
  unfold mbind, self, ret, assign, lift, datetime_now;
  cbn.

Ltac look_up_device :=
  repeat match goal with
         | |- context [_get_device ?e ?s] =>
             rewrite (_get_device_eq e s);
             destruct (fst (_get_device e s)) as [[?|]|]; cbn
         | |- context [if ?b then _ else _] => destruct b; cbn
         end.

Ltac agree := unfold consistent; cbn; intuition congruence.

Lemma Idle_consistent s : Idle s -> consistent s.
Proof. intros (H1 & H2 & H3). unfold consistent. rewrite H1, H2, H3. intuition congruence. Qed.

Lemma Pending_consistent target deadline s : Pending target deadline s -> consistent s.
Proof. intros (H1 & H2 & H3). unfold consistent. rewrite H1, H2, H3. intuition congruence. Qed.

Lemma is_on_consistent e s : consistent s -> consistent (snd (is_on e s)).
Proof.
  intros H. destruct s as [i a c sw ps pu].
  destruct sw, ps as [p|], pu as [u|];
    try (exfalso; revert H; agree);
    run_method; look_up_device; agree.
Qed.

Lemma _handle_coordinator_update_consistent e s :
  consistent s -> consistent (snd (_handle_coordinator_update e s)).
Proof.
  intros H. destruct s as [i a c sw ps pu].
  destruct sw, ps as [p|], pu as [u|];
    try (exfalso; revert H; agree);
    run_method; look_up_device; agree.
Qed.

Lemma on_failure_cleared e s : on_failure e s = (Ok Finished, cleared s).
Proof. reflexivity. Qed.

Lemma cleared_Idle s : Idle (cleared s).
Proof. repeat split. Qed.


Lemma toggle_preserving target action e s :
  consistent (snd (toggle target action e s))
  /\ forall c, fst (toggle target action e s) = Ok c -> preserving c.
Proof.
  split; [run_method; agree|].
  intros c H. cbn in H. injection H as <-.
  assert (forall s, consistent (cleared s)) as Hc
    by (intros; apply Idle_consistent, cleared_Idle).
  constructor.
  - intros [[]|] e' s' Hs; cbn; auto; apply Hc.
  - intros [[]|] e' s' c Hs H; cbn in H; injection H as <-; try constructor.
    + intros [b|] e2 s2 H2; cbn; auto; apply Hc.
    + intros [b|] e2 s2 c H2 H; cbn in H; injection H as <-; constructor.
      * intros [b'|] e3 s3 H3; cbn; auto; apply Hc.
      * intros [b'|] e3 s3 c H3 H; cbn in H; injection H as <-; constructor.
Qed.




(** C5: a call of turn_on or turn_off first enters Pending, with target the
    requested state and deadline now + 5 minutes, then awaits
    change_device_suspension with UNSUSPEND, respectively SUSPEND; whatever
    the answers to its awaits, this is its only suspension request; when the
    request returns true it awaits a sleep of 3 seconds and then one refresh
    of the coordinator, and nothing else; otherwise it awaits nothing
    more. *)
Theorem toggle_contract (target : bool) (e : Env) (s : OctopusSwitch)
    (script : list (answer * Env)) :
  exists resume s1,
    let request := change_device_suspension (_device_id s) (action_of target) in
    turn target e s = (Ok (Await request resume), s1)
    /\ Pending target (now e + five_minutes) s1
    /\ awaited script (Await request resume) s1
       = request ::
         match script with
         | (Returns true, _) :: script' =>
             asyncio_sleep 3 ::
             match script' with
             | (Returns _, _) :: _ => [async_request_refresh]
             | _ => []
             end
         | _ => []
         end
    /\ length (List.filter is_suspension_request
                 (awaited script (Await request resume) s1)) = 1%nat.
Proof.
  assert (forall action, exists resume s1,
    let request := change_device_suspension (_device_id s) action in
    toggle target action e s = (Ok (Await request resume), s1)
    /\ Pending target (now e + five_minutes) s1
    /\ awaited script (Await request resume) s1
       = request ::
         match script with
         | (Returns true, _) :: script' =>
             asyncio_sleep 3 ::
             match script' with
             | (Returns _, _) :: _ => [async_request_refresh]
             | _ => []
             end
         | _ => []
         end) as H.
  { intros action. eexists. eexists. cbn zeta.
    split; [reflexivity|]. split; [repeat split|].
    destruct script as [|[[[]|] e1] [|[[b|] e2] [|[[b3|] e3] script]]];
      try reflexivity; destruct script; reflexivity. }
  destruct (H (action_of target)) as (resume & s1 & H1 & H2 & H3).
  exists resume, s1. cbn zeta.
  split; [destruct target; exact H1|]. split; [exact H2|].
  split; [exact H3|]. rewrite H3.
  destruct script as [|[[[]|] e1] [|[[b|] e2] script]]; reflexivity.
Qed.



(** ** Reachable states *)

Lemma step_agreeing w ev : agreeing w -> agreeing (step w ev).
Proof.
  intros [Hs Hc]. destruct ev as [e|e|i a e|e|e]; cbn [step].
  - unfold start.
    pose proof (toggle_preserving true "UNSUSPEND" e (entity w)) as [H1 H2].
    fold async_turn_on in H1, H2.
    destruct (async_turn_on e (entity w)) as [[c|x] s']; split; cbn in *; auto.
    apply Forall_app. split; [exact Hc|]. constructor; [now apply H2|constructor].
  - unfold start.
    pose proof (toggle_preserving false "SUSPEND" e (entity w)) as [H1 H2].
    fold async_turn_off in H1, H2.
    destruct (async_turn_off e (entity w)) as [[c|x] s']; split; cbn in *; auto.
    apply Forall_app. split; [exact Hc|]. constructor; [now apply H2|constructor].
  - destruct (coroutines w !! i) as [[|request resume]|] eqn:E;
      try (now split).
    assert (preserving (Await request resume)) as Hp.
    { rewrite List.Forall_forall in Hc. apply Hc.
      apply list_elem_of_In. eapply list_elem_of_lookup_2. exact E. }
    inversion Hp as [|? ? Hk1 Hk2]; subst.
    specialize (Hk1 a e (entity w) Hs). specialize (Hk2 a e (entity w)).
    destruct (resume a e (entity w)) as [[c|x] s']; split; cbn in *; auto.
    + apply Forall_insert; [exact Hc|]. now apply Hk2.
    + apply Forall_insert; [exact Hc|constructor].
  - split; [|exact Hc]. now apply _handle_coordinator_update_consistent.
  - split; [|exact Hc]. now apply is_on_consistent.
Qed.

Lemma run_agreeing evs : forall w, agreeing w -> agreeing (run w evs).
Proof.
  unfold run. induction evs as [|ev evs IH]; intros w H; [exact H|].
  cbn [fold_left]. apply IH. now apply step_agreeing.
Qed.

Lemma __init___Idle device account e s :
  __init__ device account e = Ok s -> Idle s.
Proof.
  unfold __init__. destruct (subscript (id device)) as [i|]; [|discriminate].
  cbn [bind]. unfold _update_attributes, mbind, ret.
  rewrite _get_device_eq.
  destruct (fst (_get_device e _)); [|discriminate].
  intros H. injection H as <-. repeat split.
Qed.

Lemma consistent_cases s :
  consistent s -> Idle s \/ exists target deadline, Pending target deadline s.
Proof.
  unfold consistent, Idle, Pending.
  destruct (_is_switching s), (_pending_state s) as [p|], (_pending_until s) as [u|];
    intros [H1 H2];
    try (exfalso; intuition congruence).
  - right. now exists p, u.
  - now left.
Qed.

(** C10: in every state reached from construction by calls of turn_on and
    turn_off, resumptions of their coroutines with any answers, coordinator
    updates and reads of is_on, in any order, [_is_switching] is true if and
    only if [_pending_state] is not none, if and only if [_pending_until] is
    not none: the entity is Idle or Pending. *)
Theorem pending_fields_consistent (device : Device) (account : string)
    (e0 : Env) (s0 : OctopusSwitch) (events : list event) :
  __init__ device account e0 = Ok s0 ->
  let s := entity (run (created s0) events) in
  (_is_switching s = true <-> _pending_state s <> None)
  /\ (_pending_state s <> None <-> _pending_until s <> None)
  /\ (Idle s \/ exists target deadline, Pending target deadline s).
Proof.
  intros H0 s.
  assert (agreeing (run (created s0) events)) as [Hs _].
  { apply run_agreeing. split; [|constructor].
    apply Idle_consistent. now apply __init___Idle with device account e0. }
  fold s in Hs. destruct Hs as [H1 H2].
  split; [exact H1|]. split; [exact H2|].
  apply consistent_cases. now split.
Qed.

Lemma pending_fields_consistent_witness :
  let s := entity (run (created a_switch)
                     [TurnOn (suspended_at 0);
                      ReadIsOn (suspended_at 10);
                      CoordinatorUpdate (active_at 20);
                      TurnOff (active_at 30);
                      Resume 1 Raises (active_at 40);
                      ReadIsOn (active_at 50)]) in
  (_is_switching s = true <-> _pending_state s <> None)
  /\ (_pending_state s <> None <-> _pending_until s <> None)
  /\ (Idle s \/ exists target deadline, Pending target deadline s).
Proof.
  apply (pending_fields_consistent (device false) "A-12345" (suspended_at 0)).
  reflexivity.
Defined.

End Reconciler.

Section ParseTime.
Import Py Data Sensor Spec Examples Notions.




End ParseTime.

Section Windows.
Import Py Data Sensor Spec Examples Notions.

Lemma time_compare_antisym a b :
  time_compare b a = CompOpp (time_compare a b).
Proof.
  unfold time_compare.
  rewrite (Z.compare_antisym (hour a) (hour b)).
  rewrite (Z.compare_antisym (minute a) (minute b)).
  rewrite (Z.compare_antisym (second a) (second b)).
  rewrite (Z.compare_antisym (microsecond a) (microsecond b)).
  destruct (hour a ?= hour b), (minute a ?= minute b),
    (second a ?= second b), (microsecond a ?= microsecond b); reflexivity.
Qed.

Lemma time_lt_not_le a b : time_lt a b = negb (time_le b a).
Proof.
  unfold time_lt, time_le. rewrite (time_compare_antisym a b).
  now destruct (time_compare a b).
Qed.

Lemma time_le_refl a : time_le a a = true.
Proof.
  unfold time_le, time_compare. rewrite !Z.compare_refl. reflexivity.
Qed.

Lemma time_le_antisym a b :
  time_le a b = true -> time_le b a = true -> a = b.
Proof.
  unfold time_le. rewrite (time_compare_antisym a b).
  destruct (time_compare a b) eqn:E; cbn; try discriminate. intros _ _.
  unfold time_compare in E. destruct a as [h m s u], b as [h' m' s' u']. cbn in E.
  destruct (h ?= h') eqn:E1; try discriminate.
  destruct (m ?= m') eqn:E2; try discriminate.
  destruct (s ?= s') eqn:E3; try discriminate.
  apply Z.compare_eq in E1, E2, E3, E. now subst.
Qed.

Lemma midnight_first t :
  0 <= hour t -> 0 <= minute t -> 0 <= second t -> 0 <= microsecond t ->
  time_le midnight t = true.
Proof.
  destruct t as [h m s u]. cbn. intros Hh Hm Hs Hu.
  unfold time_le, time_compare, midnight. cbn.
  destruct h; [|reflexivity|lia].
  destruct m; [|reflexivity|lia].
  destruct s; [|reflexivity|lia].
  destruct u; [reflexivity|reflexivity|lia].
Qed.

(** X2: the two windows that a pair of distinct parsed times bounds, from
    [time_from] to [time_to] and from [time_to] to [time_from], split the
    day: every time of day lies in exactly one of them. *)
Theorem _is_time_between_splits_the_day
    (vf vt : value) (time_from time_to now : time) :
  _parse_time vf = Ok (Some time_from) ->
  _parse_time vt = Ok (Some time_to) ->
  time_from <> time_to ->
  time_le midnight now = true ->
  _is_time_between now time_to time_from
  = negb (_is_time_between now time_from time_to).
Proof.
  intros Hf Ht Hne Hnow.
  apply _parse_time_whole_seconds in Hf as (Uf & Rf).
  apply _parse_time_whole_seconds in Ht as (Ut & Rt).
  assert (time_le midnight time_from = true) as Mf
    by (apply midnight_first; lia).
  assert (time_le midnight time_to = true) as Mt
    by (apply midnight_first; lia).
  assert (time_lt now midnight = false) as Lm
    by (rewrite time_lt_not_le, Hnow; reflexivity).
  pose proof (is_midnight_iff time_from Uf) as If.
  pose proof (is_midnight_iff time_to Ut) as It.
  unfold _is_time_between, time_ge.
  destruct (is_midnight time_from) eqn:Ef, (is_midnight time_to) eqn:Et.
  - exfalso. apply Hne. rewrite (proj1 If eq_refl), (proj1 It eq_refl).
    reflexivity.
  - rewrite (proj1 If eq_refl) in *. rewrite Mt, Hnow, Lm.
    rewrite (time_lt_not_le now time_to). cbn.
    now rewrite orb_false_r, negb_involutive.
  - rewrite (proj1 It eq_refl) in *. rewrite Mf, Hnow, Lm.
    rewrite (time_lt_not_le now time_from). cbn.
    now rewrite orb_false_r.
  - rewrite (time_lt_not_le now time_from), (time_lt_not_le now time_to).
    destruct (time_le time_from time_to) eqn:L1,
             (time_le time_to time_from) eqn:L2.
    + exfalso. apply Hne. now apply time_le_antisym.
    + rewrite negb_andb, negb_involutive. apply orb_comm.
    + rewrite negb_orb, negb_involutive. apply andb_comm.
    + exfalso. rewrite <- (negb_involutive (time_le time_to time_from)) in L2.
      rewrite <- time_lt_not_le in L2. unfold time_lt, time_le in *.
      destruct (time_compare time_from time_to); discriminate.
Qed.

Lemma _is_time_between_splits_the_day_witness :
  _is_time_between (Time 23 30 0 0) (Time 6 0 0 0) (Time 22 0 0 0)
  = negb (_is_time_between (Time 23 30 0 0) (Time 22 0 0 0) (Time 6 0 0 0)).
Proof.
  apply (_is_time_between_splits_the_day (VStr "22:00:00") (VStr "06:00:00")
           (Time 22 0 0 0) (Time 6 0 0 0) (Time 23 30 0 0)).
  - reflexivity.
  - reflexivity.
  - discriminate.
  - reflexivity.
Defined.

(** X3: a window whose two ends are the same time is empty, unless that
    time is midnight (then it is the whole day): a rule from 08:00:00 to
    08:00:00 is never active. *)
Theorem _is_time_between_same_ends (now t : time) :
  is_midnight t = false ->
  _is_time_between now t t = false.
Proof.
  intros H. unfold _is_time_between. rewrite H, time_le_refl.
  rewrite time_lt_not_le. apply andb_negb_r.
Qed.

Lemma _is_time_between_same_ends_witness :
  _is_time_between (Time 8 0 0 0) (Time 8 0 0 0) (Time 8 0 0 0) = false.
Proof.
  apply (_is_time_between_same_ends (Time 8 0 0 0) (Time 8 0 0 0)).
  reflexivity.
Defined.

End Windows.

Section Ties.
Import Py Data Sensor Spec Examples Notions.

Lemma sort_desc_nil l : sort_desc l = [] -> l = [].
Proof.
  intros H. pose proof (sort_desc_permutation l) as P. rewrite H in P.
  now apply Permutation.Permutation_nil in P.
Qed.

(** The head of the sorted list is the first product of the list that no
    later one beats and that beats all the earlier ones. *)
Lemma sort_desc_head l p rest :
  sort_desc l = p :: rest ->
  exists before after,
    l = (before ++ p :: after)%list
    /\ forall q, In q before -> str_le (sort_key p) (sort_key q) = false.
Proof.
  revert p rest. induction l as [|x l IH]; intros p rest; [discriminate|].
  cbn [sort_desc]. destruct (sort_desc l) as [|h t] eqn:E.
  - apply sort_desc_nil in E. subst l. cbn. intros H. injection H as <- <-.
    exists [], []. split; [reflexivity|]. intros q [].
  - cbn [insert_desc].
    destruct (str_le (sort_key h) (sort_key x)) eqn:L; intros H;
      injection H as <- <-.
    + exists [], l. split; [reflexivity|]. intros q [].
    + destruct (IH h t eq_refl) as (before & after & -> & Hb).
      exists (x :: before), after. split; [reflexivity|].
      intros q [<-|Hq]; [exact L|now apply Hb].
Qed.

Lemma filter_split {A} (f : A -> bool) l b p a :
  List.filter f l = (b ++ p :: a)%list ->
  exists before after,
    l = (before ++ p :: after)%list /\ List.filter f before = b.
Proof.
  revert b. induction l as [|x l IH]; intros b H.
  - destruct b; discriminate.
  - cbn [List.filter] in H. destruct (f x) eqn:Fx.
    + destruct b as [|y b]; cbn in H; injection H as -> H.
      * exists [], l. split; reflexivity.
      * destruct (IH b H) as (before & after & -> & Hb).
        exists (y :: before), after. split; [reflexivity|].
        cbn [List.filter]. now rewrite Fx, Hb.
    + destruct (IH b H) as (before & after & -> & Hb).
      exists (x :: before), after. split; [reflexivity|].
      cbn [List.filter]. now rewrite Fx.
Qed.

(** X4: among the products in force that share the greatest [validFrom], the
    selector returns the one that comes first in the list: every product in
    force that stands before the chosen one has a strictly smaller
    [validFrom]. *)
Theorem current_product_first_of_ties (now : string) (products : list Product)
    (p : Product) :
  current_product now products = Some p ->
  exists before after,
    products = (before ++ p :: after)%list
    /\ forall q, In q before -> in_force now q ->
                 str_le (sort_key q) (sort_key p) = true
                 /\ sort_key q <> sort_key p.
Proof.
  unfold current_product.
  destruct (sort_desc (valid_products now products)) as [|h t] eqn:E;
    [discriminate|].
  intros H. injection H as ->.
  destruct (sort_desc_head _ _ _ E) as (b & a & Hv & Hb).
  destruct (filter_split _ _ _ _ _ Hv) as (before & after & -> & <-).
  exists before, after. split; [reflexivity|].
  intros q Hq Hf.
  assert (str_le (sort_key p) (sort_key q) = false) as L.
  { apply Hb. apply filter_In. split; [exact Hq|].
    now apply currently_valid_in_force. }
  split; [now apply str_le_total|].
  intros Heq. rewrite Heq, str_le_refl in L. discriminate.
Qed.

Lemma current_product_first_of_ties_witness :
  exists before after,
    [older_product; first_of_two; second_of_two]
    = (before ++ first_of_two :: after)%list
    /\ forall q, In q before -> in_force "2025-03-01T10:00:00" q ->
                 str_le (sort_key q) (sort_key first_of_two) = true
                 /\ sort_key q <> sort_key first_of_two.
Proof.
  apply (current_product_first_of_ties "2025-03-01T10:00:00"
           [older_product; first_of_two; second_of_two] first_of_two).
  reflexivity.
Defined.

End Ties.

Section Raising.
Import Py Data Sensor Spec Examples Notions MoreExamples.







(** X6: a missing rate key is priced zero, a [null] one is not priced.
    For a product that is not time-of-use, no [grossRate] key gives the rate
    0.0 and a [null] [grossRate] gives [None]; in a time-of-use product, a
    first rule that contains [now] gives 0.0 when its timeslot has no [rate]
    key. *)
Theorem missing_rate_is_zero (now : time) (p : Product) :
  (value_eqb (get (type p)) (VStr "TimeOfUse") = false ->
   (grossRate p = None -> product_rate now p = Ok (Some (S754_zero false)))
   /\ (grossRate p = Some VNone -> product_rate now p = Ok None))
  /\ (forall ts slots r rules,
        get (type p) = VStr "TimeOfUse" ->
        timeslots p = Some (ts :: slots) ->
        activation_rules ts = Some (r :: rules) ->
        parse_settles r ->
        rule_contains now r = true ->
        rate ts = None ->
        product_rate now p = Ok (Some (S754_zero false))).
Proof.
  split.
  - intros T. unfold product_rate. rewrite T. cbn [bind].
    rewrite float_div_100_guarded. split; intros ->; reflexivity.
  - intros ts slots r rules T Es Er [Pf Pt] Hc Hr.
    unfold product_rate, _get_active_timeslot_rate. rewrite T.
    change (value_eqb (VStr "TimeOfUse") (VStr "TimeOfUse")) with true.
    change (value_eqb (VStr "TimeOfUse") (VStr "Simple")) with false.
    assert (product_falsy p = false) as ->.
    { unfold product_falsy, get, get_default in *.
      destruct (type p); [|discriminate].
      destruct (code p), (name p), (description p); reflexivity. }
    rewrite Es. cbv iota. cbn [for_timeslot]. rewrite Er.
    change (default [] (Some (r :: rules))) with (r :: rules).
    cbn [for_rule]. unfold rule_contains, window in Hc.
    destruct (_parse_time (get_default (from_time r) _)) as [[f|]|];
      try discriminate.
    destruct (_parse_time (get_default (to_time r) _)) as [[t|]|];
      try discriminate.
    cbn [bind]. rewrite Hc, float_div_100_guarded, Hr. reflexivity.
Qed.

Lemma missing_rate_is_zero_witness :
  product_rate ten_o_clock unpriced_product = Ok (Some (S754_zero false)).
Proof.
  apply (proj1 (proj1 (missing_rate_is_zero ten_o_clock unpriced_product)
                  eq_refl)).
  reflexivity.
Defined.

(** X7: a price sensor that has a value is available exactly when the last
    update of the coordinator succeeded: [native_value] returns a rate only
    on a snapshot that holds the account of the sensor, which is what
    [available] asks for besides [last_update_success]. *)
Theorem priced_sensor_availability (f : fuel) (account : string)
    (coordinator : Coordinator) (now : string) (t : time) (r : float) :
  native_value f account coordinator now t = Ok (Some r) ->
  available account coordinator = last_update_success coordinator.
Proof.
  unfold native_value, available, data_falsy, data_is_dict.
  destruct (data coordinator) as [d|]; [|discriminate].
  destruct (bool_decide (d = ∅)); [discriminate|]. cbn [orb negb].
  destruct (d !! account) as [a|] eqn:E; [|discriminate].
  intros _. rewrite bool_decide_eq_true_2 by (now exists a).
  now rewrite !andb_true_r.
Qed.

Lemma priced_sensor_availability_witness :
  available "A-12345" (snapshot (account [simple_product] []))
  = last_update_success (snapshot (account [simple_product] [])).
Proof.
  apply (priced_sensor_availability Electricity "A-12345"
           (snapshot (account [simple_product] [])) morning ten_o_clock
           (float_div (float_of_Z 2550) hundred)).
  vm_compute. reflexivity.
Defined.

End Raising.

Section Attributes.
Import Py Data Sensor Spec Examples Notions MoreExamples.

Lemma float_div_100_rate v :
  float_div_100 v = match float_ v with
                    | Ok x => Ok (float_div x hundred)
                    | Raise e => Raise e
                    end.
Proof. unfold float_div_100. now destruct (float_ v). Qed.


Lemma scan_last now l ts r :
  scan now (l ++ [(ts, r)]) =
  match scan now l with
  | Some x => Some x
  | None =>
      if rule_contains now r
      then rate_over_100 (get_default (rate ts) (VStr "0"))
      else None
  end.
Proof.
  rewrite scan_app. destruct (scan now l); [reflexivity|].
  cbn [scan]. destruct (rule_contains now r); [|reflexivity].
  now destruct (rate_over_100 _).
Qed.

(** What the loop over the rules of one timeslot does to the attributes,
    when it ends without raising. *)
Lemma attributes_for_rule_ok now ts rules attrs seen attrs' seen' :
  attributes_for_rule now ts rules attrs seen = Ok (attrs', seen') ->
  Forall parse_settles rules
  /\ (forall k, ~ In k active_keys -> attrs' !! k = attrs !! k)
  /\ attrs' !! "active_timeslot_rate"
     = match scan now (rev (map (pair ts) rules)) with
       | Some x => Some (AFloat x)
       | None => attrs !! "active_timeslot_rate"
       end.
Proof.
  revert attrs seen. induction rules as [|r rules IH]; intros attrs seen.
  - cbn. intros H. injection H as <- <-. repeat split. constructor.
  - cbn [attributes_for_rule map rev]. rewrite scan_last.
    unfold rule_contains, window.
    destruct (_parse_time (get_default (from_time r) _)) as [f|] eqn:Ef;
      [|discriminate].
    destruct (_parse_time (get_default (to_time r) _)) as [t|] eqn:Et;
      [|discriminate].
    cbn [bind].
    assert (parse_settles r) as Pr
      by (unfold parse_settles; rewrite Ef, Et; now split).
    assert (forall a s,
              attributes_for_rule now ts rules a s = Ok (attrs', seen') ->
              (forall k, ~ In k active_keys -> a !! k = attrs !! k) ->
              Forall parse_settles (r :: rules)
              /\ (forall k, ~ In k active_keys -> attrs' !! k = attrs !! k)
              /\ attrs' !! "active_timeslot_rate"
                 = match scan now (rev (map (pair ts) rules)) with
                   | Some x => Some (AFloat x)
                   | None => a !! "active_timeslot_rate"
                   end) as Step.
    { intros a s H Ha. destruct (IH a s H) as (F & K & R).
      split; [now constructor|]. split; [|exact R].
      intros k Hk. rewrite (K k Hk). now apply Ha. }
    destruct f as [f|], t as [t|];
      try (intros H; destruct (Step _ _ H (fun _ _ => eq_refl)) as (F & K & R);
           split; [exact F|]; split; [exact K|]; rewrite R;
           now destruct (scan now (rev (map (pair ts) rules)))).
    destruct (_is_time_between now f t).
    + rewrite float_div_100_rate. unfold rate_over_100.
      destruct (float_ (get_default (rate ts) (VStr "0"))) as [x|];
        [|discriminate].
      cbn [bind]. intros H.
      match type of H with
      | attributes_for_rule _ _ _ ?a ?s = _ =>
          destruct (Step a s H) as (F & K & R)
      end.
      { intros k Hk. unfold active_keys in Hk. cbn [In] in Hk.
        rewrite !lookup_insert_ne; [reflexivity|..];
          intros <-; apply Hk; tauto. }
      split; [exact F|]. split; [exact K|]. rewrite R.
      destruct (scan now (rev (map (pair ts) rules))); [reflexivity|].
      rewrite lookup_insert_ne by discriminate.
      rewrite lookup_insert_ne by discriminate.
      now rewrite lookup_insert_eq.
    + intros H. destruct (Step _ _ H (fun _ _ => eq_refl)) as (F & K & R).
      split; [exact F|]. split; [exact K|]. rewrite R.
      now destruct (scan now (rev (map (pair ts) rules))).
Qed.


Lemma scan_order_cons ts slots :
  scan_order (ts :: slots)
  = (map (pair ts) (default [] (activation_rules ts)) ++ scan_order slots)%list.
Proof. reflexivity. Qed.

(** The same for the loop over the timeslots. *)
Lemma attributes_for_timeslot_ok now slots attrs tdata attrs' tdata' :
  attributes_for_timeslot now slots attrs tdata = Ok (attrs', tdata') ->
  Forall (fun '(_, r) => parse_settles r) (scan_order slots)
  /\ (forall k, ~ In k active_keys -> attrs' !! k = attrs !! k)
  /\ attrs' !! "active_timeslot_rate"
     = match scan now (rev (scan_order slots)) with
       | Some x => Some (AFloat x)
       | None => attrs !! "active_timeslot_rate"
       end.
Proof.
  revert attrs tdata. induction slots as [|ts slots IH]; intros attrs tdata.
  - cbn. intros H. injection H as <- <-. repeat split. constructor.
  - cbn [attributes_for_timeslot]. rewrite scan_order_cons.
    destruct (attributes_for_rule now ts _ attrs []) as [[a1 seen1]|] eqn:E;
      [|discriminate].
    cbn [bind]. intros H.
    apply attributes_for_rule_ok in E as (F1 & K1 & R1).
    apply IH in H as (F2 & K2 & R2).
    split.
    { apply Forall_app. split; [|exact F2].
      apply List.Forall_forall. intros [ts' r] Hin.
      apply in_map_iff in Hin as (r' & Hr' & Hin). injection Hr' as <- <-.
      rewrite List.Forall_forall in F1. now apply F1. }
    split; [intros k Hk; rewrite (K2 k Hk); now apply K1|].
    rewrite R2, rev_app_distr, scan_app.
    destruct (scan now (rev (scan_order slots))); [reflexivity|exact R1].
Qed.



(** [_update_attributes] on a snapshot that holds the account. *)
Lemma _update_attributes_equation f account coordinator now t d account_data :
  data coordinator = Some d ->
  d !! account = Some account_data ->
  _update_attributes f account coordinator now t =
  match current_product now (products_of f account_data) with
  | None =>
      Ok (with_meter (meter_info f account_data) (default_attributes f account))
  | Some p =>
      let* product_attributes :=
        match timeslots p with
        | Some slots =>
            if value_eqb (get (type p)) (VStr "TimeOfUse")
            then
              let* r := attributes_for_timeslot t slots
                          (product_attributes_of f account account_data p) [] in
              Ok (<["timeslots" := ATimeslots (snd r)]> (fst r))
            else Ok (product_attributes_of f account account_data p)
        | None => Ok (product_attributes_of f account account_data p)
        end in
      Ok (account_attributes f account_data product_attributes)
  end.
Proof.
  intros Hd Ha. unfold _update_attributes. rewrite Hd.
  assert (data_falsy coordinator = false) as ->.
  { unfold data_falsy. rewrite Hd. apply bool_decide_eq_false.
    intros ->. rewrite lookup_empty in Ha. discriminate. }
  rewrite Ha.
  destruct (products_of f account_data) as [|q l] eqn:Ep; [reflexivity|].
  destruct (current_product now (q :: l)) as [p|]; [|reflexivity].
  fold (product_attributes_of f account account_data p).
  destruct (match timeslots p with Some _ => _ | None => _ end);
    cbn [bind]; [|reflexivity].
  unfold account_attributes. now destruct f.
Qed.


Ltac look :=
  repeat first
    [ rewrite lookup_insert_eq
    | rewrite lookup_insert_ne by (intro; discriminate) ].

Lemma account_attributes_lookup f account_data m k :
  ~ In k closing_keys -> account_attributes f account_data m !! k = m !! k.
Proof.
  intros Hk. unfold closing_keys in Hk. cbn [In] in Hk.
  unfold account_attributes.
  destruct f;
    [destruct (electricity_balance account_data)
    |destruct (gas_balance account_data)];
    rewrite !lookup_insert_ne; try reflexivity; intros <-; apply Hk; tauto.
Qed.

Lemma standing_not_active k : In k standing_keys -> ~ In k active_keys.
Proof.
  unfold standing_keys, active_keys. cbn [In].
  intros H A. repeat destruct H as [<-|H]; try contradiction;
    repeat destruct A as [A|A]; try discriminate; contradiction.
Qed.

Lemma standing_not_closing k : In k standing_keys -> ~ In k closing_keys.
Proof.
  unfold standing_keys, closing_keys. cbn [In].
  intros H A. repeat destruct H as [<-|H]; try contradiction;
    repeat destruct A as [A|A]; try discriminate; contradiction.
Qed.

Lemma default_attributes_standing f account k :
  In k standing_keys ->
  is_Some (default_attributes f account !! k)
  /\ default_attributes f account !! "account_number"
     = Some (AValue (VStr account)).
Proof.
  unfold standing_keys. cbn [In]. intros H.
  unfold default_attributes.
  split; [|destruct f; look; reflexivity].
  repeat destruct H as [<-|H]; try contradiction; destruct f; look; eauto.
Qed.

Lemma with_meter_standing info m account k :
  In k standing_keys ->
  is_Some (m !! k) -> m !! "account_number" = Some (AValue (VStr account)) ->
  is_Some (with_meter info m !! k)
  /\ with_meter info m !! "account_number" = Some (AValue (VStr account)).
Proof.
  destruct info as [[i n] ty]. unfold with_meter, standing_keys. cbn [In].
  intros H S A. split; [|look; exact A].
  repeat destruct H as [<-|H]; try contradiction; look; eauto.
Qed.

Lemma product_attributes_of_standing f account account_data p k :
  In k standing_keys ->
  is_Some (product_attributes_of f account account_data p !! k)
  /\ product_attributes_of f account account_data p !! "account_number"
     = Some (AValue (VStr account)).
Proof.
  intros H.
  destruct (default_attributes_standing f account k H) as [S A].
  destruct (with_meter_standing (meter_info f account_data) _ account k H S A)
    as [S' A'].
  unfold product_attributes_of. split; [|look; exact A'].
  unfold standing_keys in H. cbn [In] in H.
  repeat destruct H as [<-|H]; try contradiction; look; eauto.
Qed.



(** X9: whenever [_update_attributes] returns a dict, the dict holds the ten
    keys code, name, description, type, valid_from, valid_to, meter_id,
    meter_number, meter_type and account_number, and under account_number
    the account of the sensor, whatever the snapshot. *)
Theorem _update_attributes_standing_keys
    (f : fuel) (account : string) (coordinator : Coordinator)
    (now : string) (t : time) (attrs : gmap string attr) :
  _update_attributes f account coordinator now t = Ok attrs ->
  (forall k, In k standing_keys -> is_Some (attrs !! k))
  /\ attrs !! "account_number" = Some (AValue (VStr account)).
Proof.
  intros H.
  enough (forall k, In k standing_keys ->
            is_Some (attrs !! k)
            /\ attrs !! "account_number" = Some (AValue (VStr account))) as G.
  { split; [intros k Hk; now apply G|].
    apply (G "account_number"). unfold standing_keys. cbn. tauto. }
  intros k Hk.
  destruct (data coordinator) as [d|] eqn:Ed.
  2:{ unfold _update_attributes in H. rewrite Ed in H. injection H as <-.
      now apply default_attributes_standing. }
  destruct (d !! account) as [account_data|] eqn:Ea.
  2:{ unfold _update_attributes in H. rewrite Ed, Ea in H.
      destruct (data_falsy coordinator); injection H as <-;
        now apply default_attributes_standing. }
  rewrite (_update_attributes_equation _ _ _ _ _ _ _ Ed Ea) in H.
  destruct (current_product now (products_of f account_data)) as [p|].
  2:{ injection H as <-.
      destruct (default_attributes_standing f account k Hk) as [S A].
      now apply with_meter_standing. }
  pose proof (standing_not_active k Hk) as Na.
  pose proof (standing_not_closing k Hk) as Nc.
  assert (~ In "account_number" active_keys) as Na'
    by (apply standing_not_active; unfold standing_keys; cbn; tauto).
  assert (~ In "account_number" closing_keys) as Nc'
    by (apply standing_not_closing; unfold standing_keys; cbn; tauto).
  destruct (product_attributes_of_standing f account account_data p k Hk)
    as [S A].
  assert (forall m, m !! k = product_attributes_of f account account_data p !! k ->
                    m !! "account_number"
                    = product_attributes_of f account account_data p
                        !! "account_number" ->
                    Ok (account_attributes f account_data m) = Ok attrs ->
                    is_Some (attrs !! k)
                    /\ attrs !! "account_number" = Some (AValue (VStr account)))
    as Fin.
  { intros m Hk1 Hk2 E. injection E as <-.
    rewrite !account_attributes_lookup by assumption.
    rewrite Hk1, Hk2. now split. }
  destruct (timeslots p) as [slots|]; [|now apply (Fin _ eq_refl eq_refl)].
  destruct (value_eqb (get (type p)) (VStr "TimeOfUse"));
    [|now apply (Fin _ eq_refl eq_refl)].
  destruct (attributes_for_timeslot t slots _ []) as [[a1 td]|] eqn:E;
    [|discriminate].
  cbn [bind fst snd] in H.
  apply attributes_for_timeslot_ok in E as (_ & K & _).
  apply (Fin _) in H; [exact H| |].
  - rewrite lookup_insert_ne; [now apply K|].
    intros <-. apply Nc. unfold closing_keys. cbn. tauto.
  - rewrite lookup_insert_ne by discriminate. now apply K.
Qed.

Lemma _update_attributes_standing_keys_witness :
  exists attrs,
    _update_attributes Gas "A-12345" no_snapshot morning ten_o_clock = Ok attrs
    /\ (forall k, In k standing_keys -> is_Some (attrs !! k))
    /\ attrs !! "account_number" = Some (AValue (VStr "A-12345")).
Proof.
  eexists. split; [reflexivity|].
  apply (_update_attributes_standing_keys Gas "A-12345" no_snapshot
           morning ten_o_clock).
  reflexivity.
Defined.


(** X10: the attributes describe the product that [native_value] prices: on
    a snapshot that holds the account, the dict that [_update_attributes]
    returns carries under code, type, valid_from and valid_to the fields of
    the product in force, and "Unknown" under each of them, with no
    active_tariff_type, when no product is in force. *)
Theorem _update_attributes_describes_current_product
    (f : fuel) (account : string) (coordinator : Coordinator)
    (now : string) (t : time) (d : gmap string AccountData)
    (account_data : AccountData) (attrs : gmap string attr) :
  data coordinator = Some d ->
  d !! account = Some account_data ->
  _update_attributes f account coordinator now t = Ok attrs ->
  match current_product now (products_of f account_data) with
  | Some p =>
      attrs !! "code" = Some (AValue (get_default (code p) unknown))
      /\ attrs !! "type" = Some (AValue (get_default (type p) unknown))
      /\ attrs !! "valid_from" = Some (AValue (get_default (validFrom p) unknown))
      /\ attrs !! "valid_to" = Some (AValue (get_default (validTo p) unknown))
      /\ attrs !! "active_tariff_type"
         = Some (AValue (get_default (type p) unknown))
  | None =>
      attrs !! "code" = Some (AValue unknown)
      /\ attrs !! "type" = Some (AValue unknown)
      /\ attrs !! "valid_from" = Some (AValue unknown)
      /\ attrs !! "valid_to" = Some (AValue unknown)
      /\ attrs !! "active_tariff_type" = None
  end.
Proof.
  intros Ed Ea H.
  rewrite (_update_attributes_equation _ _ _ _ _ _ _ Ed Ea) in H.
  destruct (current_product now (products_of f account_data)) as [p|].
  2:{ injection H as <-. unfold with_meter, default_attributes.
      destruct (meter_info f account_data) as [[i n] ty].
      destruct f; look; rewrite ?lookup_empty; repeat split. }
  assert (forall m,
            (forall k, ~ In k active_keys -> ~ In k closing_keys ->
                       m !! k
                       = product_attributes_of f account account_data p !! k) ->
            Ok (account_attributes f account_data m) = Ok attrs ->
            attrs !! "code" = Some (AValue (get_default (code p) unknown))
            /\ attrs !! "type" = Some (AValue (get_default (type p) unknown))
            /\ attrs !! "valid_from"
               = Some (AValue (get_default (validFrom p) unknown))
            /\ attrs !! "valid_to"
               = Some (AValue (get_default (validTo p) unknown))
            /\ attrs !! "active_tariff_type"
               = Some (AValue (get_default (type p) unknown))) as Fin.
  { intros m Hm E. injection E as <-.
    assert (forall k, ~ In k active_keys -> ~ In k closing_keys ->
              account_attributes f account_data m !! k
              = product_attributes_of f account account_data p !! k) as L.
    { intros k Ha Hc. rewrite account_attributes_lookup by exact Hc.
      now apply Hm. }
    repeat split; rewrite L;
      try (unfold product_attributes_of; look; reflexivity);
      unfold active_keys, closing_keys; cbn [In]; intros A;
      repeat destruct A as [A|A]; try discriminate; contradiction. }
  destruct (timeslots p) as [slots|];
    [|cbn [bind] in H; exact (Fin _ (fun _ _ _ => eq_refl) H)].
  destruct (value_eqb (get (type p)) (VStr "TimeOfUse"));
    [|cbn [bind] in H; exact (Fin _ (fun _ _ _ => eq_refl) H)].
  destruct (attributes_for_timeslot t slots _ []) as [[a1 td]|] eqn:E;
    [|discriminate].
  cbn [bind fst snd] in H.
  apply attributes_for_timeslot_ok in E as (_ & K & _).
  refine (Fin _ _ H).
  intros k Ha Hc. rewrite lookup_insert_ne; [now apply K|].
  intros <-. apply Hc. unfold closing_keys. cbn. tauto.
Qed.

Lemma _update_attributes_describes_current_product_witness :
  exists d account_data attrs,
    data (snapshot (account [simple_product] [])) = Some d
    /\ d !! "A-12345" = Some account_data
    /\ _update_attributes Electricity "A-12345"
         (snapshot (account [simple_product] [])) morning ten_o_clock
       = Ok attrs
    /\ match current_product morning (products_of Electricity account_data) with
       | Some p =>
           attrs !! "code" = Some (AValue (get_default (code p) unknown))
           /\ attrs !! "type" = Some (AValue (get_default (type p) unknown))
           /\ attrs !! "valid_from"
              = Some (AValue (get_default (validFrom p) unknown))
           /\ attrs !! "valid_to"
              = Some (AValue (get_default (validTo p) unknown))
           /\ attrs !! "active_tariff_type"
              = Some (AValue (get_default (type p) unknown))
       | None =>
           attrs !! "code" = Some (AValue unknown)
           /\ attrs !! "type" = Some (AValue unknown)
           /\ attrs !! "valid_from" = Some (AValue unknown)
           /\ attrs !! "valid_to" = Some (AValue unknown)
           /\ attrs !! "active_tariff_type" = None
       end.
Proof.
  eexists. eexists. eexists.
  split; [reflexivity|]. split; [vm_compute; reflexivity|].
  split; [reflexivity|].
  apply (_update_attributes_describes_current_product Electricity "A-12345"
           (snapshot (account [simple_product] [])) morning ten_o_clock
           {[ "A-12345" := account [simple_product] [] ]}
           (account [simple_product] [])).
  - reflexivity.
  - vm_compute. reflexivity.
  - reflexivity.
Defined.

(** X11: where several rules of a time-of-use product contain the current
    time, the attribute active_timeslot_rate and the state of the sensor
    follow different rules: when [_update_attributes] returns, the attribute
    is the rate of the last such rule in scan order, while [native_value]
    returns the rate of the first one (or falls back on [grossRate]). *)
Theorem active_timeslot_rate_is_last_match
    (f : fuel) (account : string) (coordinator : Coordinator)
    (now : string) (t : time) (d : gmap string AccountData)
    (account_data : AccountData) (p : Product) (attrs : gmap string attr) :
  data coordinator = Some d ->
  d !! account = Some account_data ->
  current_product now (products_of f account_data) = Some p ->
  get (type p) = VStr "TimeOfUse" ->
  _update_attributes f account coordinator now t = Ok attrs ->
  attrs !! "active_timeslot_rate"
  = AFloat <$> scan t (rev (scan_order (default [] (timeslots p))))
  /\ native_value f account coordinator now t
     = Ok (match scan t (scan_order (default [] (timeslots p))) with
           | Some x => Some x
           | None => rate_over_100 (get_default (grossRate p) (VStr "0"))
           end).
Proof.
  intros Ed Ea Ec T H.
  rewrite (_update_attributes_equation _ _ _ _ _ _ _ Ed Ea), Ec in H.
  rewrite T in H.
  change (value_eqb (VStr "TimeOfUse") (VStr "TimeOfUse")) with true in H.
  assert (native_value f account coordinator now t = product_rate t p) as ->.
  { unfold native_value, data_falsy, data_is_dict. rewrite Ed, Ea.
    assert (bool_decide (d = ∅) = false) as ->.
    { apply bool_decide_eq_false. intros ->. rewrite lookup_empty in Ea.
      discriminate. }
    cbn [orb negb].
    destruct (products_of f account_data) as [|q l] eqn:Ep;
      [discriminate|]. now rewrite Ec. }
  assert (~ In "active_timeslot_rate" closing_keys) as Nc.
  { unfold closing_keys. cbn [In]. intros A.
    repeat destruct A as [A|A]; try discriminate; contradiction. }
  assert (product_attributes_of f account account_data p
            !! "active_timeslot_rate" = None) as P0.
  { unfold product_attributes_of, with_meter, default_attributes.
    destruct (meter_info f account_data) as [[i n] ty].
    destruct f; look; apply lookup_empty. }
  destruct (timeslots p) as [slots|] eqn:Es.
  - change (default [] (Some slots)) with slots.
    destruct (attributes_for_timeslot t slots _ []) as [[a1 td]|] eqn:E;
      [|discriminate].
    cbn [bind fst snd] in H. injection H as <-.
    apply attributes_for_timeslot_ok in E as (F & _ & R).
    split.
    + rewrite account_attributes_lookup by exact Nc.
      rewrite lookup_insert_ne by discriminate. rewrite R, P0.
      now destruct (scan t (rev (scan_order slots))).
    + rewrite (product_rate_time_of_use t p T).
      * unfold resolve_time_of_use. rewrite Es. reflexivity.
      * rewrite Es. exact F.
  - change (default [] None) with (@nil Timeslot).
    cbn [bind] in H. injection H as <-. split.
    + rewrite account_attributes_lookup by exact Nc. exact P0.
    + rewrite (product_rate_time_of_use t p T).
      * unfold resolve_time_of_use. rewrite Es. reflexivity.
      * rewrite Es. constructor.
Qed.

Lemma active_timeslot_rate_is_last_match_witness :
  exists attrs,
    _update_attributes Electricity "A-12345"
      (snapshot (account [overlapping_product] [])) morning ten_o_clock
    = Ok attrs
    /\ attrs !! "active_timeslot_rate" = Some (AFloat (float_of_Z 40))
    /\ native_value Electricity "A-12345"
         (snapshot (account [overlapping_product] [])) morning ten_o_clock
       = Ok (Some (float_of_Z 10)).
Proof.
  destruct (_update_attributes Electricity "A-12345"
              (snapshot (account [overlapping_product] [])) morning
              ten_o_clock) as [attrs|e] eqn:E;
    [|vm_compute in E; discriminate].
  exists attrs. split; [reflexivity|].
  destruct (active_timeslot_rate_is_last_match Electricity "A-12345"
              (snapshot (account [overlapping_product] [])) morning
              ten_o_clock {[ "A-12345" := account [overlapping_product] [] ]}
              (account [overlapping_product] []) overlapping_product attrs
              eq_refl ltac:(vm_compute; reflexivity)
              ltac:(vm_compute; reflexivity) eq_refl E) as [H1 H2].
  split.
  - rewrite H1. vm_compute. reflexivity.
  - rewrite H2. vm_compute. reflexivity.
Defined.

End Attributes.

Section Balances.
Import Py Data Sensor Spec Examples Notions MoreExamples.

Ltac look_at :=
  repeat (rewrite lookup_insert_ne by discriminate);
  try (rewrite lookup_insert_eq); rewrite ?lookup_empty.

Lemma balance_key_outside f :
  ~ In (Balance.balance_key f) active_keys.
Proof.
  unfold active_keys. cbn [In]. intros A.
  destruct f; repeat destruct A as [A|A]; try discriminate; contradiction.
Qed.

Lemma default_attributes_no_balance f account :
  default_attributes f account !! Balance.balance_key f = None.
Proof. unfold default_attributes. destruct f; cbn; now look_at. Qed.

Lemma with_meter_no_balance f info m :
  with_meter info m !! Balance.balance_key f = m !! Balance.balance_key f.
Proof.
  unfold with_meter. destruct info as [[i n] ty]. destruct f; cbn; now look_at.
Qed.

Lemma product_attributes_of_no_balance f account account_data p :
  product_attributes_of f account account_data p !! Balance.balance_key f
  = None.
Proof.
  unfold product_attributes_of.
  transitivity (with_meter (meter_info f account_data)
                  (default_attributes f account) !! Balance.balance_key f).
  - destruct f; cbn; now look_at.
  - rewrite with_meter_no_balance. apply default_attributes_no_balance.
Qed.

Lemma account_attributes_balance f account_data m :
  m !! Balance.balance_key f = None ->
  account_attributes f account_data m !! Balance.balance_key f
  = AMoney <$> Balance.balance_of f account_data.
Proof.
  intros Hm. unfold account_attributes, Balance.balance_of.
  destruct f; cbn in *.
  - destruct (electricity_balance account_data); cbn; look_at;
      [reflexivity|exact Hm].
  - destruct (gas_balance account_data); cbn; look_at;
      [reflexivity|exact Hm].
Qed.

(** X12: the balance that a price sensor shows among its attributes is the
    value of the balance sensor of the same account: when
    [_update_attributes] returns a dict with the key electricity_balance
    (gas_balance for gas), the amount under it is what [native_value] of
    the balance sensor returns. *)
Theorem balance_attribute_is_balance_sensor_value (f : fuel)
    (account : string) (coordinator : Coordinator) (now : string) (t : time)
    (attrs : gmap string attr) (shown : attr) :
  _update_attributes f account coordinator now t = Ok attrs ->
  attrs !! Balance.balance_key f = Some shown ->
  exists b,
    shown = AMoney b
    /\ Balance.native_value f account coordinator = Some b.
Proof.
  intros H L.
  destruct (data coordinator) as [d|] eqn:Ed.
  2:{ unfold _update_attributes in H. rewrite Ed in H. injection H as <-.
      rewrite default_attributes_no_balance in L. discriminate. }
  destruct (d !! account) as [a|] eqn:Ea.
  2:{ unfold _update_attributes in H. rewrite Ed, Ea in H.
      destruct (data_falsy coordinator); injection H as <-;
        rewrite default_attributes_no_balance in L; discriminate. }
  rewrite (_update_attributes_equation _ _ _ _ _ _ _ Ed Ea) in H.
  assert (Balance.native_value f account coordinator
          = Some (default (S754_zero false) (Balance.balance_of f a))) as N.
  { unfold Balance.native_value, data_falsy, data_is_dict. rewrite Ed, Ea.
    rewrite bool_decide_eq_false_2; [reflexivity|].
    intros ->. rewrite lookup_empty in Ea. discriminate. }
  assert (forall m, m !! Balance.balance_key f = None ->
                    Ok (account_attributes f a m) = Ok attrs ->
                    exists b, shown = AMoney b
                              /\ Balance.native_value f account coordinator
                                 = Some b) as Fin.
  { intros m Hm E. injection E as <-.
    rewrite (account_attributes_balance _ _ _ Hm) in L.
    destruct (Balance.balance_of f a) as [b|]; [|discriminate].
    injection L as <-. exists b. split; [reflexivity|exact N]. }
  destruct (current_product now (products_of f a)) as [p|].
  2:{ injection H as <-.
      rewrite with_meter_no_balance, default_attributes_no_balance in L.
      discriminate. }
  pose proof (product_attributes_of_no_balance f account a p) as P0.
  destruct (timeslots p) as [slots|];
    [|cbn [bind] in H; exact (Fin _ P0 H)].
  destruct (value_eqb (get (type p)) (VStr "TimeOfUse"));
    [|cbn [bind] in H; exact (Fin _ P0 H)].
  destruct (attributes_for_timeslot t slots _ []) as [[a1 td]|] eqn:E;
    [|discriminate].
  cbn [bind fst snd] in H.
  apply attributes_for_timeslot_ok in E as (_ & K & _).
  refine (Fin _ _ H).
  rewrite lookup_insert_ne by (destruct f; discriminate).
  rewrite K by apply balance_key_outside. exact P0.
Qed.

Lemma balance_attribute_is_balance_sensor_value_witness :
  exists b,
    AMoney (float_of_Z 12) = AMoney b
    /\ Balance.native_value Electricity "A-12345"
         (snapshot credited_account) = Some b.
Proof.
  destruct (_update_attributes Electricity "A-12345"
              (snapshot credited_account) morning ten_o_clock)
    as [attrs|x] eqn:E; [|vm_compute in E; discriminate].
  apply (balance_attribute_is_balance_sensor_value Electricity "A-12345"
           (snapshot credited_account) morning ten_o_clock attrs
           (AMoney (float_of_Z 12)) E).
  vm_compute in E. injection E as <-. vm_compute. reflexivity.
Defined.

End Balances.

Section Devices.
Import Py Data Switch Host Spec Examples Notions MoreExamples.

#[local] Arguments _get_device : simpl never.

Lemma value_eqb_eq a b : value_eqb a b = true <-> a = b.
Proof.
  destruct a as [|s], b as [|t]; cbn; try (split; congruence).
  rewrite String.eqb_eq. split; congruence.
Qed.

(** [_get_device] is [next] over the devices of the account. *)
Lemma _get_device_devices_of e s :
  fst (_get_device e s)
  = next_device (_device_id s) (devices_of (coordinator e) (_account_number s)).
Proof.
  unfold _get_device, devices_of, mbind, the_coordinator, self, ret, lift,
    data_falsy.
  destruct (data (coordinator e)) as [d|]; [|reflexivity].
  case_bool_decide as E.
  - subst d. rewrite lookup_empty. reflexivity.
  - destruct (match d !! _ with Some a => _ | None => _ end); reflexivity.
Qed.

Lemma next_device_first_match device_id devices :
  match next_device device_id devices with
  | Ok (Some d) =>
      exists pre post,
        devices = (pre ++ d :: post)%list
        /\ Forall (other_id device_id) pre
        /\ id d = Some device_id
  | Ok None => Forall (other_id device_id) devices
  | Raise x =>
      x = KeyError
      /\ exists pre d post,
           devices = (pre ++ d :: post)%list
           /\ Forall (other_id device_id) pre
           /\ id d = None
  end.
Proof.
  induction devices as [|d devices IH]; cbn [next_device].
  - constructor.
  - destruct (id d) as [i|] eqn:Ei; cbn [subscript].
    + destruct (value_eqb i device_id) eqn:E.
      * apply value_eqb_eq in E. subst i.
        exists [], devices. repeat split; [constructor|assumption].
      * assert (other_id device_id d) as Ho.
        { exists i. split; [assumption|]. intros ->.
          assert (value_eqb device_id device_id = true) as E'
            by now apply value_eqb_eq.
          congruence. }
        destruct (next_device device_id devices) as [[d'|]|x].
        -- destruct IH as (pre & post & -> & F & Hi).
           exists (d :: pre), post. repeat split; [|assumption].
           now constructor.
        -- now constructor.
        -- destruct IH as (-> & pre & d' & post & -> & F & Hi).
           split; [reflexivity|].
           exists (d :: pre), d', post. repeat split; [|assumption].
           now constructor.
    + split; [reflexivity|]. exists [], d, devices.
      repeat split; [constructor|assumption].
Qed.

(** X13: [_get_device] returns the first device of the account whose id is
    that of the switch; it returns None when every device of the account
    carries another id (and so when the snapshot lists no device for the
    account); and it raises, [KeyError] only, exactly when a device without
    the key id stands before any device with the id of the switch. *)
Theorem _get_device_first_match (e : Env) (s : OctopusSwitch) :
  let devices := devices_of (coordinator e) (_account_number s) in
  match fst (_get_device e s) with
  | Ok (Some d) =>
      exists pre post,
        devices = (pre ++ d :: post)%list
        /\ Forall (other_id (_device_id s)) pre
        /\ id d = Some (_device_id s)
  | Ok None => Forall (other_id (_device_id s)) devices
  | Raise x =>
      x = KeyError
      /\ exists pre d post,
           devices = (pre ++ d :: post)%list
           /\ Forall (other_id (_device_id s)) pre
           /\ id d = None
  end.
Proof.
  cbn zeta. rewrite _get_device_devices_of. apply next_device_first_match.
Qed.

Lemma _get_device_found_account e s d :
  fst (_get_device e s) = Ok (Some d) ->
  exists m, data (coordinator e) = Some m /\ is_Some (m !! _account_number s).
Proof.
  rewrite _get_device_devices_of. unfold devices_of.
  destruct (data (coordinator e)) as [m|]; [|discriminate].
  destruct (m !! _account_number s) as [a|] eqn:E; [|discriminate].
  intros _. exists m. split; [reflexivity|]. now exists a.
Qed.

(** X14: [available] of the switch is true exactly when the last update
    succeeded and [_get_device] finds the device; it raises [TypeError] when
    the last update succeeded without a snapshot, and otherwise what
    [_get_device] raises. *)
Theorem switch_available_outcomes (e : Env) (s : OctopusSwitch) :
  (available e s = Ok true <->
     last_update_success (coordinator e) = true
     /\ exists d, fst (_get_device e s) = Ok (Some d))
  /\ (forall x,
        available e s = Raise x <->
          (x = TypeError
           /\ last_update_success (coordinator e) = true
           /\ data (coordinator e) = None)
          \/ fst (_get_device e s) = Raise x).
Proof.
  unfold available.
  destruct (fst (_get_device e s)) as [[d|]|y] eqn:G.
  - destruct (_get_device_found_account _ _ _ G) as (m & Em & Hm).
    rewrite Em. rewrite bool_decide_eq_true_2 by assumption.
    destruct (last_update_success (coordinator e)); cbn; split.
    + split; [intros _; split; [reflexivity|now exists d]|reflexivity].
    + intros x. split; [discriminate|].
      intros [(_ & _ & ?)|?]; discriminate.
    + split; [discriminate|]. intros [? _]; discriminate.
    + intros x. split; [discriminate|].
      intros [(_ & ? & _)|?]; discriminate.
  - split.
    + split.
      * destruct (last_update_success (coordinator e));
          [destruct (data (coordinator e))|]; cbn;
          rewrite ?andb_false_r; discriminate.
      * intros (_ & d & ?). discriminate.
    + intros x.
      assert (data (coordinator e) = None \/ exists m, data (coordinator e) = Some m)
        as [E|(m & E)] by (destruct (data (coordinator e)); eauto).
      * rewrite E. destruct (last_update_success (coordinator e)); cbn.
        -- split; [intros H; injection H as <-; left; now repeat split|].
           intros [(-> & _)|?]; [reflexivity|discriminate].
        -- split; [discriminate|].
           intros [(_ & ? & _)|?]; discriminate.
      * rewrite E. destruct (last_update_success (coordinator e)); cbn;
          (split; [discriminate|]);
          intros [(_ & _ & ?)|?]; discriminate.
  - assert (exists m, data (coordinator e) = Some m) as (m & E).
    { rewrite _get_device_devices_of in G. unfold devices_of in G.
      destruct (data (coordinator e)) as [m|]; [now exists m|discriminate]. }
    rewrite E. split.
    + split.
      * destruct (last_update_success (coordinator e)); cbn; discriminate.
      * intros (_ & d & ?). discriminate.
    + intros x.
      destruct (last_update_success (coordinator e)); cbn;
        (split; [intros H; injection H as <-; now right|]);
        (intros [(_ & _ & ?)|H]; [discriminate|now injection H as <-]).
Qed.

Lemma _get_device_next e s :
  _get_device e s
  = (next_device (_device_id s)
       (devices_of (coordinator e) (_account_number s)), s).
Proof. rewrite _get_device_eq at 1. now rewrite _get_device_devices_of. Qed.

Ltac run_it :=
  unfold _handle_coordinator_update, is_on, toggle, on_failure,
    _update_attributes, async_write_ha_state, reset_pending;
  unfold mbind, self, ret, assign, lift, datetime_now;
  cbn.

Ltac split_cases :=
  repeat match goal with
         | |- context [_get_device ?e ?s] =>
             rewrite (_get_device_next e s); cbn
         | |- context [next_device ?i ?l] =>
             destruct (next_device i l) as [[?|]|]; cbn
         | |- context [if ?b then _ else _] => destruct b eqn:?; cbn
         end.

(** [is_on], one case after the other. *)
Lemma is_on_equation e s :
  is_on e s =
  let waiting :=
    _is_switching s && bool_decide (is_Some (_pending_state s)) in
  let timed_out :=
    match _pending_until s with
    | Some pending_until => pending_until <? now e
    | None => false
    end in
  if waiting && negb timed_out
  then (Ok (default false (_pending_state s)), s)
  else
    let s0 := if waiting then cleared s else s in
    match next_device (_device_id s)
            (devices_of (coordinator e) (_account_number s)) with
    | Ok (Some d) =>
        (Ok (device_is_on d), set_current_state (device_is_on d) s0)
    | Ok None => (Ok false, s0)
    | Raise x => (Raise x, s0)
    end.
Proof.
  destruct s as [i a c sw ps pu].
  destruct sw, ps as [p|], pu as [u|]; run_it;
    try destruct (u <? now e); cbn;
    try reflexivity; rewrite _get_device_next; cbn;
    destruct (next_device i _) as [[d|]|]; reflexivity.
Qed.

(** The entity after [_handle_coordinator_update]. *)
Lemma _handle_coordinator_update_equation e s :
  snd (_handle_coordinator_update e s) =
  match next_device (_device_id s)
          (devices_of (coordinator e) (_account_number s)) with
  | Ok (Some d) =>
      if _is_switching s then
        match _pending_state s with
        | Some p =>
            if Bool.eqb (device_is_on d) p
            then set_current_state (device_is_on d) (cleared s)
            else s
        | None => s
        end
      else set_current_state (device_is_on d) s
  | _ => s
  end.
Proof.
  destruct s as [i a c sw ps pu].
  destruct c, sw, ps as [[]|], pu as [u|]; run_it;
    rewrite _get_device_next; cbn;
    destruct (next_device i _) as [[d|]|] eqn:G; cbn; try reflexivity;
    destruct (device_is_on d); cbn;
    rewrite ?_get_device_next; cbn; rewrite ?G; reflexivity.
Qed.

#[local] Arguments is_on : simpl never.

(** X15: a read of [is_on] changes the entity (it ends an operation past
    its deadline and stores the state it reports), but never what a later
    read reports: any read at the same or a later instant, on any snapshot,
    returns the same with or without the earlier read. *)
Theorem is_on_read_is_unobservable (e e' : Env) (s : OctopusSwitch) :
  now e <= now e' ->
  fst (is_on e' (snd (is_on e s))) = fst (is_on e' s).
Proof.
  intros Hle. rewrite (is_on_equation e s). cbn zeta.
  destruct s as [i a c sw ps pu].
  destruct sw, ps as [p|], pu as [u|]; cbn;
    repeat match goal with
           | |- context [?u <? now e] => destruct (u <? now e) eqn:E; cbn
           | |- context [next_device ?i (devices_of (coordinator e) ?a)] =>
               destruct (next_device i (devices_of (coordinator e) a))
                 as [[d|]|]; cbn
           end;
    rewrite !is_on_equation; cbn; try reflexivity;
    try match goal with
        | |- context [?u <? now e'] => destruct (u <? now e') eqn:E'; cbn
        end;
    try reflexivity;
    try (apply Z.ltb_lt in E; apply Z.ltb_ge in E'; lia);
    destruct (next_device i (devices_of (coordinator e') a)) as [[d'|]|];
    reflexivity.
Qed.

Lemma is_on_read_is_unobservable_witness :
  fst (is_on (active_at 400000000) (snd (is_on (suspended_at 300000001) pending_switch)))
  = fst (is_on (active_at 400000000) pending_switch).
Proof.
  apply (is_on_read_is_unobservable (suspended_at 300000001)
           (active_at 400000000) pending_switch).
  cbn. lia.
Defined.

(** X16: [_handle_coordinator_update] does not change what [is_on] reports
    on the snapshot it handles: whether the operation is pending, confirmed
    or past its deadline, a read on the same snapshot returns the same
    before and after the update. *)
Theorem update_keeps_reported_state (e e' : Env) (s : OctopusSwitch) :
  coordinator e' = coordinator e ->
  fst (is_on e' (snd (_handle_coordinator_update e s))) = fst (is_on e' s).
Proof.
  intros Hc. rewrite _handle_coordinator_update_equation.
  destruct s as [i a c sw ps pu]. cbn [_device_id _account_number].
  destruct (next_device i (devices_of (coordinator e) a)) as [[d|]|] eqn:G;
    try reflexivity.
  destruct sw, ps as [p|], pu as [u|]; cbn;
    try destruct (Bool.eqb (device_is_on d) p) eqn:B; cbn;
    rewrite !is_on_equation; cbn; rewrite ?Hc, ?G; try reflexivity;
    apply Bool.eqb_prop in B; subst p;
    try match goal with
        | |- context [?u <? now e'] => destruct (u <? now e')
        end; reflexivity.
Qed.

Lemma update_keeps_reported_state_witness :
  fst (is_on (active_at 10)
         (snd (_handle_coordinator_update (active_at 5) pending_switch)))
  = fst (is_on (active_at 10) pending_switch).
Proof.
  apply (update_keeps_reported_state (active_at 5) (active_at 10)
           pending_switch).
  reflexivity.
Defined.

End Devices.

Section Coroutines.
Import Py Data Switch Host Spec Examples Notions MoreExamples.

#[local] Arguments _get_device : simpl never.


Lemma press_step target e w :
  step w (press target e) = start (turn target) e w.
Proof. now destruct target. Qed.




(** ** The switch keeps to its own device *)

Lemma is_on_same_identity e s : same_identity s (snd (is_on e s)).
Proof.
  rewrite is_on_equation. cbn zeta. destruct s as [i a c sw ps pu].
  destruct (_ && negb _); [now split|].
  destruct (_ && _);
    destruct (next_device _ _) as [[d|]|]; now split.
Qed.

Lemma _handle_coordinator_update_same_identity e s :
  same_identity s (snd (_handle_coordinator_update e s)).
Proof.
  rewrite _handle_coordinator_update_equation.
  destruct s as [i a c sw ps pu].
  destruct (next_device _ _) as [[d|]|]; try now split.
  destruct sw; [|now split]. destruct ps as [p|]; [|now split].
  cbn. destruct (Bool.eqb _ _); now split.
Qed.

Lemma toggle_own_device target action e s :
  action = "SUSPEND" \/ action = "UNSUSPEND" ->
  same_identity s (snd (toggle target action e s))
  /\ forall c, fst (toggle target action e s) = Ok c ->
               own_device (_device_id s) c.
Proof.
  intros Ha. split; [now split|].
  intros c H. cbn in H. injection H as <-.
  constructor.
  - now split.
  - intros [[]|] e' s'; now split.
  - intros [[]|] e' s' c Hs H; cbn in H; injection H as <-;
      try constructor; try exact I.
    + intros [b|] e2 s2; now split.
    + intros [b|] e2 s2 c H2 H; cbn in H; injection H as <-;
        constructor; try exact I.
      * intros [b'|] e3 s3; now split.
      * intros [b'|] e3 s3 c H3 H; cbn in H; injection H as <-; constructor.
Qed.

Lemma step_own_device i a w ev :
  _device_id (entity w) = i /\ _account_number (entity w) = a
  /\ Forall (own_device i) (coroutines w) ->
  _device_id (entity (step w ev)) = i
  /\ _account_number (entity (step w ev)) = a
  /\ Forall (own_device i) (coroutines (step w ev)).
Proof.
  intros (Hi & Ha & Hc).
  assert (forall e target action,
            action = "SUSPEND" \/ action = "UNSUSPEND" ->
            let w' := start (toggle target action) e w in
            _device_id (entity w') = i /\ _account_number (entity w') = a
            /\ Forall (own_device i) (coroutines w')) as Hstart.
  { intros e target action Hact. cbn zeta. unfold start.
    destruct (toggle_own_device target action e (entity w) Hact)
      as [[H1 H1'] H2].
    destruct (toggle target action e (entity w)) as [[c|x] s'];
      cbn in *; (split; [congruence|]); (split; [congruence|]); auto.
    apply Forall_app. split; [exact Hc|].
    constructor; [|constructor]. rewrite <- Hi. now apply H2. }
  destruct ev as [e|e|n ans e|e|e]; cbn [step].
  - apply (Hstart e true "UNSUSPEND"). now right.
  - apply (Hstart e false "SUSPEND"). now left.
  - destruct (coroutines w !! n) as [[|request resume]|] eqn:E;
      try (now repeat split).
    assert (own_device i (Await request resume)) as Hp.
    { rewrite List.Forall_forall in Hc. apply Hc.
      apply list_elem_of_In. eapply list_elem_of_lookup_2. exact E. }
    inversion Hp as [|? ? _ Hk1 Hk2]; subst.
    destruct (Hk1 ans e (entity w)) as [H1 H1'].
    specialize (Hk2 ans e (entity w)).
    destruct (resume ans e (entity w)) as [[c|x] s'];
      cbn in *; (split; [congruence|]); (split; [congruence|]).
    + apply Forall_insert; [exact Hc|]. now apply Hk2.
    + apply Forall_insert; [exact Hc|constructor].
  - destruct (_handle_coordinator_update_same_identity e (entity w))
      as [H1 H1'].
    unfold call. cbn [entity coroutines].
    split; [congruence|]. split; [congruence|exact Hc].
  - destruct (is_on_same_identity e (entity w)) as [H1 H1'].
    unfold call. cbn [entity coroutines].
    split; [congruence|]. split; [congruence|exact Hc].
Qed.

(** X19: whatever the host does with a switch (calls of turn_on and
    turn_off, answers to their awaits, coordinator updates, reads of is_on,
    in any order), the entity keeps the device id and the account number it
    started with, and every suspension request that one of its coroutines
    awaits names that device, with SUSPEND or UNSUSPEND as its action. *)
Theorem switch_keeps_to_its_device (s0 : OctopusSwitch)
    (events : list event) :
  let w := run (created s0) events in
  same_identity s0 (entity w)
  /\ forall n call resume,
       coroutines w !! n = Some (Await call resume) ->
       own_call (_device_id s0) call.
Proof.
  cbn zeta.
  assert (forall w,
            _device_id (entity w) = _device_id s0
            /\ _account_number (entity w) = _account_number s0
            /\ Forall (own_device (_device_id s0)) (coroutines w) ->
            _device_id (entity (run w events)) = _device_id s0
            /\ _account_number (entity (run w events)) = _account_number s0
            /\ Forall (own_device (_device_id s0)) (coroutines (run w events)))
    as H.
  { unfold run. induction events as [|ev events IH]; intros w Hw; [exact Hw|].
    cbn [fold_left]. apply IH. now apply step_own_device. }
  destruct (H (created s0)) as (H1 & H2 & H3).
  { repeat split. constructor. }
  split; [now split|].
  intros n call resume E.
  assert (own_device (_device_id s0) (Await call resume)) as Hp.
  { rewrite List.Forall_forall in H3. apply H3.
    apply list_elem_of_In. eapply list_elem_of_lookup_2. exact E. }
  now inversion Hp.
Qed.

End Coroutines.

Section Platform.
Import Py Data Switch Host Spec Examples Notions MoreExamples Setup.

#[local] Arguments _get_device : simpl never.
















End Platform.
